(** * kip: the virtual-kubelet provider of package [server]

    A shallow embedding of the provider code of package [server]
    (constants, [ensureRegionUnchanged], [loadProviderConfig],
    [filterEventList], [filterReplyObject], the pod lifecycle callbacks and
    the node status synthesis), followed by the properties the
    specification states about them.

    Conventions.
    - Go [int], [int32] and [time.Duration] values are [Z]; nothing here
      computes near a bound of the machine types.
    - Go strings and [[]byte] are byte sequences: both are [string], and
      the conversions [string(b)] and [[]byte(s)] are the identity.
    - A pointer that the code tests against [nil] is an [option]; a pointer
      the code dereferences without a test is the record itself.
    - A Go [map] is a [gmap]; a slice is a [list].
    - What the code takes from other packages (the etcd client, the file
      system, the JSON decoder, the quantity parser, the clock, the tracer
      and its spans, the sort of package [sort]) is an interface: a class
      or a record of operations that the functions call, with the laws the
      library documents. *)

From Stdlib Require Import ZArith String List Permutation Sorted Lia.
From stdpp Require Import base option list gmap strings sorting.

Local Open Scope string_scope.
Local Open Scope list_scope.
Local Open Scope Z_scope.

(** ** Time *)

Module time.

(** Modelled from the spec: [api.Time] is declared in package [api],
    outside the files embedded here.  It wraps [time.Time], an instant, here in
    nanoseconds since the epoch. *)
Definition Time : Type := Z.

(** Modelled from the spec: [Before] of [api.Time], outside the files
    embedded here, is [time.Time.Before]: [t] is an earlier instant than [u]. *)
Definition Before (t u : Time) : bool := t <? u.

(** [time.Duration] counts nanoseconds. *)
Definition Duration : Type := Z.
Definition Nanosecond : Duration := 1.
Definition Microsecond : Duration := 1000 * Nanosecond.
Definition Millisecond : Duration := 1000 * Microsecond.
Definition Second : Duration := 1000 * Millisecond.

End time.

(** ** Errors *)

(** Go [error] values the provider sees: the sentinels of package [store],
    values built by [fmt.Errorf], and errors produced inside a library
    (I/O, decoding), which the provider only passes on. *)
Inductive error : Type :=
| ErrKeyNotFound
| ErrKeyExists
| ErrKeyModified
| Errorf (msg : string)
| LibraryError (msg : string).

Global Instance error_eq_dec : EqDecision error.
Proof. solve_decision. Defined.

(** The method [Error()]. *)
Definition Error (e : error) : string :=
  match e with
  | ErrKeyNotFound => "Key not found in store"
  | ErrKeyExists => "Previous K/V pair exists, cannot complete Atomic operation"
  | ErrKeyModified => "Unable to complete atomic operation, key modified"
  | Errorf msg => msg
  | LibraryError msg => msg
  end.

(** A result paired with an error, as in [(v, err)] returns. *)
Inductive result (A : Type) : Type :=
| Ok (v : A)
| Err (e : error).
Global Arguments Ok {A} v.
Global Arguments Err {A} e.

(** [sub] occurs in [s]. *)
Definition contains (s sub : string) : Prop :=
  ∃ pre post : string, s = pre +:+ sub +:+ post.

(** ** Package [api]: the objects of the registry *)

Module api.

(** Modelled from the spec: the types of package [api] are declared outside
    the files embedded here.  Every entity carries a kind, a name, a namespace,
    a UID and a creation timestamp; the other fields are those the provider
    code and its tests read. *)
Record TypeMeta := {
  Kind : string;
  APIVersion : string;
}.

(** Modelled from the spec: [api.ObjectMeta], embedded in every entity. *)
Record ObjectMeta := {
  Name : string;
  Namespace : string;
  UID : string;
  CreationTimestamp : time.Time;
}.

(** Modelled from the spec: [api.ObjectReference], the link from an event
    or a log to its parent object. *)
Record ObjectReference := {
  RefKind : string;
  RefUID : string;
  RefName : string;
}.

(** Modelled from the spec: the phases of a pod. *)
Inductive PodPhase : Type :=
| PodWaiting | PodDispatching | PodRunning
| PodSucceeded | PodFailed | PodTerminated.

Global Instance PodPhase_eq_dec : EqDecision PodPhase.
Proof. solve_decision. Defined.

(** Modelled from the spec: [api.PodStatus]. *)
Record PodStatus := {
  Phase : PodPhase;
  BoundNodeName : string;
  BoundInstanceID : string;
}.

(** Modelled from the spec: [api.Pod]. *)
Record Pod := {
  PodTypeMeta : TypeMeta;
  PodObjectMeta : ObjectMeta;
  PodStatus_ : PodStatus;
}.

(** Modelled from the spec: [api.Node], a cell. *)
Record Node := {
  NodeTypeMeta : TypeMeta;
  NodeObjectMeta : ObjectMeta;
  NodeAddresses : list string;
}.

(** Modelled from the spec: [api.Event]; [CreationTimestamp] is a field
    of the embedded [ObjectMeta]. *)
Record Event := {
  EventTypeMeta : TypeMeta;
  EventObjectMeta : ObjectMeta;
  InvolvedObject : ObjectReference;
  Status : string;
  Source : string;
  Message : string;
}.

(** Modelled from the spec: [api.EventList], the reply to a list of
    events. *)
Record EventList := {
  EventListTypeMeta : TypeMeta;
  Items : list Event;
}.

(** Modelled from the spec: [api.LogFile], a log snapshot and the object
    it belongs to. *)
Record LogFile := {
  LogTypeMeta : TypeMeta;
  LogObjectMeta : ObjectMeta;
  ParentObject : ObjectReference;
  Content : string;
}.

(** Modelled from the spec: the interface [api.MilpaObject], declared
    outside the files embedded here, as a tagged variant: a value of one of the
    pointer types that implement it, or the nil interface.  A
    [*api.EventList] inside the interface may itself be a nil pointer. *)
Inductive MilpaObject : Type :=
| NilObject
| PodObject (p : Pod)
| PodListObject (l : list Pod)
| NodeObject (n : Node)
| NodeListObject (l : list Node)
| EventObject (e : Event)
| EventListObject (l : option EventList)
| LogFileObject (f : LogFile).

(** Modelled from the spec: [api.ToObjectReference], outside the files
    embedded here, gives the kind, UID and name of the object. *)
Definition ToObjectReference (p : Pod) : ObjectReference :=
  {| RefKind := Kind (PodTypeMeta p);
     RefUID := UID (PodObjectMeta p);
     RefName := Name (PodObjectMeta p) |}.

End api.

(** ** Package [sort] *)

(** [less] is a strict weak ordering, the condition under which package
    [sort] promises a sorted result. *)
Record StrictWeakOrder {A : Type} (less : A → A → bool) : Prop := {
  swo_asym : ∀ x y, less x y = true → less y x = false;
  swo_co_trans : ∀ x y z, less y x = false → less z y = false → less z x = false;
}.

(** [x] may stand before [y] in a slice sorted by [less]. *)
Definition not_after {A : Type} (less : A → A → bool) : relation A :=
  λ x y, less y x = false.

(** [sort.Slice(x, less)]: the slice is rearranged in place according to
    [less].  The sort is not stable, so the order of equal elements is
    whatever the implementation leaves; the provider code is modelled
    against every implementation of the interface. *)
Class SliceSorter : Type :=
  sort_Slice : ∀ {A : Type}, (A → A → bool) → list A → list A.

(** The contract of [sort.Slice]: the elements are kept, and when [less] is
    a strict weak ordering no element is [less] than one before it. *)
Class SliceSorterLaws `{SliceSorter} : Prop := {
  sort_Slice_Permutation :
    ∀ {A : Type} (less : A → A → bool) (l : list A), sort_Slice less l ≡ₚ l;
  sort_Slice_Sorted :
    ∀ {A : Type} (less : A → A → bool) (l : list A),
      StrictWeakOrder less → StronglySorted (not_after less) (sort_Slice less l);
}.

Global Instance not_after_dec {A : Type} (less : A → A → bool) (x y : A) :
  Decision (not_after less x y).
Proof. unfold not_after. apply _. Defined.

(** One implementation of the interface: stdpp's merge sort. *)
Definition merge_sort_Slice {A : Type} (less : A → A → bool) (l : list A) : list A :=
  merge_sort (not_after less) l.

Definition mergeSorter : SliceSorter := @merge_sort_Slice.

(** ** Package [server] *)

(** [var MaxEventListSize = 4000]; nothing in the provider assigns it. *)
Definition MaxEventListSize : Z := 4000.

(** [s[start:]] for [0 <= start <= len(s)]. *)
Definition slice_from {A : Type} (start : Z) (s : list A) : list A :=
  drop (Z.to_nat start) s.

(** [e.CreationTimestamp], a field of the embedded [ObjectMeta]. *)
Definition created (e : api.Event) : time.Time :=
  api.CreationTimestamp (api.EventObjectMeta e).

(** The [less] closure handed to [sort.Slice] in [filterEventList]. *)
Definition createdBefore (a b : api.Event) : bool :=
  time.Before (created a) (created b).

(** [filterEventList].  The Go function sorts [eventList.Items] in place and
    returns the pointer it was given; the value returned is the list the
    pointer then refers to. *)
Definition filterEventList `{SliceSorter} (eventList : option api.EventList)
  : option api.EventList :=
  match eventList with
  | Some l =>
      if Z.of_nat (length (api.Items l)) >? MaxEventListSize then
        let sorted := sort_Slice createdBefore (api.Items l) in
        let size := Z.of_nat (length sorted) in
        let start := size - MaxEventListSize in
        Some {| api.EventListTypeMeta := api.EventListTypeMeta l;
                api.Items := slice_from start sorted |}
      else Some l
  | None => None
  end.

(** [filterReplyObject]: a type switch with the single case
    [*api.EventList]. *)
Definition filterReplyObject `{SliceSorter} (obj : api.MilpaObject) : api.MilpaObject :=
  match obj with
  | api.EventListObject v => api.EventListObject (filterEventList v)
  | _ => obj
  end.

(** ** The etcd client *)

Module store.

Record KVPair := {
  Key : string;
  Value : string;
  LastIndex : Z;
}.

Record WriteOptions := {
  IsDir : bool;
  TTL : time.Duration;
}.

End store.

Module etcd.

(** [*etcd.SimpleEtcd], whose methods are outside the files embedded here, as
    an interface: the two methods the provider calls on it.  [St]
    is the state of the store behind the client.  [Get] returns the pair
    stored under a key, [store.ErrKeyNotFound] when there is none, or the
    error of a failed request.  [AtomicPut] returns the new state and the
    triple [(ok, pair, err)]. *)
Class SimpleEtcd (St : Type) : Type := {
  Get : St → string → result store.KVPair;
  AtomicPut : St → string → string → option store.KVPair →
              option store.WriteOptions →
              St * (bool * option store.KVPair * option error);
}.

(** An in-memory store: the keys and values it holds, and the error every
    request fails with while the store cannot be reached. *)
Record Mem := {
  data : gmap string string;
  outage : option error;
}.

Definition memGet (m : Mem) (key : string) : result store.KVPair :=
  match outage m with
  | Some e => Err e
  | None =>
      match data m !! key with
      | Some v => Ok {| store.Key := key; store.Value := v; store.LastIndex := 0 |}
      | None => Err ErrKeyNotFound
      end
  end.

Definition memAtomicPut (m : Mem) (key value : string)
    (previous : option store.KVPair) (opts : option store.WriteOptions)
  : Mem * (bool * option store.KVPair * option error) :=
  let written :=
    ({| data := <[key := value]> (data m); outage := outage m |},
     (true,
      Some {| store.Key := key; store.Value := value; store.LastIndex := 0 |},
      None)) in
  match outage m with
  | Some e => (m, (false, None, Some e))
  | None =>
      match previous, data m !! key with
      | None, None => written
      | None, Some _ => (m, (false, None, Some ErrKeyExists))
      | Some _, None => (m, (false, None, Some ErrKeyNotFound))
      | Some prev, Some cur =>
          if decide (store.Value prev = cur) then written
          else (m, (false, None, Some ErrKeyModified))
      end
  end.

Global Instance memEtcd : SimpleEtcd Mem := {|
  Get := memGet;
  AtomicPut := memAtomicPut;
|}.

End etcd.

Definition milpaElectionDir : string := "milpa/election".
Definition etcdClusterRegionPath : string := "milpa/cluster/region".

(** [ensureRegionUnchanged]: the state of the store after the call and the
    error returned ([None] is [nil]). *)
Definition ensureRegionUnchanged {St : Type} `{!etcd.SimpleEtcd St}
    (etcdClient : St) (region : string) : St * option error :=
  match etcd.Get etcdClient etcdClusterRegionPath with
  | Err err =>
      if decide (err ≠ ErrKeyNotFound) then (etcdClient, Some err)
      else
        let '(etcdClient', (_, _, err)) :=
          etcd.AtomicPut etcdClient etcdClusterRegionPath region None None in
        (etcdClient', err)
  | Ok kv =>
      let savedRegion := store.Value kv in
      if decide (region ≠ savedRegion) then
        (etcdClient,
         Some (Errorf ("Error: region has changed from " +:+ savedRegion +:+
                       " to " +:+ region +:+ ". " +:+
                       "This is unsupported. " +:+
                       "Please delete all cluster resources and rename your cluster.")))
      else (etcdClient, None)
  end.

(** ** The provider configuration *)

Definition defaultCPUCapacity : string := "20".
Definition defaultMemoryCapacity : string := "100Gi".
Definition defaultPodCapacity : string := "20".

Definition namespaceKey : string := "namespace".
Definition nameKey : string := "name".
Definition containerNameKey : string := "containerName".

Record ProviderConfig := {
  CPU : string;
  Memory : string;
  Pods : string;
}.

Module strconv.

(** [strconv.Quote], which the verb [%q] applies to a string. *)
Class Quoter : Type := Quote : string → string.

End strconv.

Module ioutil.

(** [ioutil.ReadFile] on the file system the process runs on. *)
Class FileReader : Type := ReadFile : string → result string.

End ioutil.

Module json.

(** [json.Unmarshal(data, &configMap)] for a [map[string]ProviderConfig]
    that is empty before the call: the map decoded, or the decoder's
    error. *)
Class Decoder : Type := Unmarshal : string → result (gmap string ProviderConfig).

End json.

Module resource.

Inductive Format : Type := DecimalExponent | BinarySI | DecimalSI.

(** A quantity: the number [unscaled * 10 ^ (- scale)] and the format it
    is printed in. *)
Record Quantity := {
  unscaled : Z;
  scale : Z;
  format : Format;
}.

(** [resource.ParseQuantity]. *)
Class Parser : Type := ParseQuantity : string → result Quantity.

End resource.

(** What a call that may panic does. *)
Inductive outcome (A : Type) : Type :=
| Returns (v : A)
| Panics.
Global Arguments Returns {A} v.
Global Arguments Panics {A}.

(** [resource.MustParse] panics where [resource.ParseQuantity] fails. *)
Definition MustParse `{!resource.Parser} (str : string) : outcome resource.Quantity :=
  match resource.ParseQuantity str with
  | Ok q => Returns q
  | Err _ => Panics
  end.

Definition ProviderConfig_zero : ProviderConfig :=
  {| CPU := ""; Memory := ""; Pods := "" |}.

(** [loadProviderConfig]: the pair [(config, err)] returned. *)
Definition loadProviderConfig
    `{!strconv.Quoter} `{!ioutil.FileReader} `{!json.Decoder} `{!resource.Parser}
    (providerConfig nodeName : string) : ProviderConfig * option error :=
  let config := ProviderConfig_zero in
  match ioutil.ReadFile providerConfig with
  | Err err =>
      (config,
       Some (Errorf ("reading config " +:+ strconv.Quote providerConfig +:+
                     ": " +:+ Error err)))
  | Ok data =>
      match json.Unmarshal data with
      | Err err => (config, Some err)
      | Ok configMap =>
          let config :=
            match configMap !! nodeName with
            | Some c => c
            | None => config
            end in
          let config :=
            if decide (CPU config = "")
            then {| CPU := defaultCPUCapacity; Memory := Memory config; Pods := Pods config |}
            else config in
          let config :=
            if decide (Memory config = "")
            then {| CPU := CPU config; Memory := defaultMemoryCapacity; Pods := Pods config |}
            else config in
          let config :=
            if decide (Pods config = "")
            then {| CPU := CPU config; Memory := Memory config; Pods := defaultPodCapacity |}
            else config in
          match resource.ParseQuantity (CPU config) with
          | Err _ => (config, Some (Errorf ("Invalid CPU value " +:+ CPU config)))
          | Ok _ =>
              match resource.ParseQuantity (Memory config) with
              | Err _ => (config, Some (Errorf ("Invalid memory value " +:+ Memory config)))
              | Ok _ =>
                  match resource.ParseQuantity (Pods config) with
                  | Err _ => (config, Some (Errorf ("Invalid pods value " +:+ Pods config)))
                  | Ok _ => (config, None)
                  end
              end
          end
      end
  end.

(** ** Kubernetes types the provider fills in *)

Module v1.

Inductive ConditionStatus : Type := ConditionTrue | ConditionFalse | ConditionUnknown.

Record NodeCondition := {
  Type_ : string;
  Status : ConditionStatus;
  LastHeartbeatTime : time.Time;
  LastTransitionTime : time.Time;
  Reason : string;
  Message : string;
}.

Record NodeAddress := {
  AddressType : string;
  Address : string;
}.

Record DaemonEndpoint := { Port : Z }.

Record NodeDaemonEndpoints := { KubeletEndpoint : DaemonEndpoint }.

Record NodeSystemInfo := {
  MachineID : string;
  SystemUUID : string;
  BootID : string;
  KernelVersion : string;
  OSImage : string;
  ContainerRuntimeVersion : string;
  KubeletVersion : string;
  KubeProxyVersion : string;
  OperatingSystem : string;
  Architecture : string;
}.

Record ContainerImage := {
  Names : list string;
  SizeBytes : Z;
}.

Record AttachedVolume := {
  VolumeName : string;
  DevicePath : string;
}.

(** [v1.NodeConfigStatus], by its error and the names of the assigned and
    the active configuration source. *)
Record NodeConfigStatus := {
  ConfigAssigned : option string;
  ConfigActive : option string;
  ConfigError : string;
}.

Record Taint := {
  TaintKey : string;
  TaintValue : string;
  TaintEffect : string;
}.

Record NodeSpec := {
  PodCIDR : string;
  ProviderID : string;
  Unschedulable : bool;
  Taints : list Taint;
}.

(** [v1.ResourceList], a [map[ResourceName]resource.Quantity]. *)
Abbreviation ResourceList := (gmap string resource.Quantity).

Record NodeStatus := {
  Capacity : ResourceList;
  Allocatable : ResourceList;
  NodePhase : string;
  Conditions : list NodeCondition;
  Addresses : list NodeAddress;
  DaemonEndpoints : NodeDaemonEndpoints;
  NodeInfo : NodeSystemInfo;
  Images : list ContainerImage;
  VolumesInUse : list string;
  VolumesAttached : list AttachedVolume;
  Config : option NodeConfigStatus;
}.

(** [v1.Node]: the embedded type and object metadata, the specification
    and the status. *)
Record Node := {
  NodeKind : string;
  NodeAPIVersion : string;
  NodeName : string;
  NodeUID : string;
  NodeLabels : gmap string string;
  NodeAnnotations : gmap string string;
  Spec : NodeSpec;
  Status_ : NodeStatus;
}.

Record Pod := {
  Namespace : string;
  Name : string;
  UID : string;
}.

Record PodStatus := {
  Phase : string;
  PodMessage : string;
}.

End v1.

Module vkapi.

Record ContainerLogOpts := {
  Tail : Z;
  LimitBytes : Z;
  Timestamps : bool;
  Follow : bool;
  Previous : bool;
}.

(** [vkapi.AttachIO], by what its methods return. *)
Record AttachIO := {
  TTY : bool;
  HasStdin : bool;
}.

End vkapi.

(** ** Tracing and logging *)

(** A [context.Context] as the provider uses it: the span opened on it and
    the fields attached for the logger. *)
Record Context := {
  ctxSpan : option string;
  ctxFields : list (string * string);
}.

Module trace.

(** The interface [trace.Span] of virtual-kubelet, by the method the
    provider calls on a span besides [End]: [span.WithField(ctx, key,
    value)], which returns a context.  What it does to the context is up
    to the span. *)
Record Span := {
  WithField : Context → string → string → Context;
}.

(** [trace.StartSpan(ctx, name)] of the tracer the process is configured
    with: the context and the span returned. *)
Class Tracer : Type := StartSpan : Context → string → Context * Span.

End trace.

(** The loop of [addAttributes]: [attrs[i]] and [attrs[i+1]] for
    [i = 0, 2, ...]. *)
Fixpoint addAttributes_loop (ctx : Context) (span : trace.Span)
    (attrs : list string) : Context :=
  match attrs with
  | k :: v :: rest => addAttributes_loop (trace.WithField span ctx k v) span rest
  | _ => ctx
  end.

Definition addAttributes (ctx : Context) (span : trace.Span)
    (attrs : list string) : Context :=
  if Z.of_nat (length attrs) mod 2 =? 1 then ctx
  else addAttributes_loop ctx span attrs.

Inductive fmtArg : Type :=
| ArgString (s : string)
| ArgStrings (l : list string).

(** A line written by [log.G(ctx).Infof(format, args...)]. *)
Record LogEntry := {
  entryCtx : Context;
  entryFormat : string;
  entryArgs : list fmtArg;
}.

Definition Infof (ctx : Context) (format : string) (args : list fmtArg) : LogEntry :=
  {| entryCtx := ctx; entryFormat := format; entryArgs := args |}.

(** A value together with the lines logged while it was computed. *)
Definition Logged (A : Type) : Type := list LogEntry * A.

(** ** The provider *)

(** [InstanceProvider], by the fields its methods read. *)
Record InstanceProvider := {
  nodeName : string;
  operatingSystem : string;
  internalIP : string;
  daemonEndpointPort : Z;
  config : ProviderConfig;
  startTime : time.Time;
}.

Definition notImplemented : error := Errorf "not implemented".

Definition CreatePod `{!trace.Tracer} (p : InstanceProvider) (ctx : Context) (pod : v1.Pod)
  : Logged (option error) :=
  let '(ctx, span) := trace.StartSpan ctx "CreatePod" in
  let ctx := addAttributes ctx span [namespaceKey; v1.Namespace pod; nameKey; v1.Name pod] in
  ([Infof ctx "CreatePod %q" [ArgString (v1.Name pod)]], Some notImplemented).

Definition UpdatePod `{!trace.Tracer} (p : InstanceProvider) (ctx : Context) (pod : v1.Pod)
  : Logged (option error) :=
  let '(ctx, span) := trace.StartSpan ctx "UpdatePod" in
  let ctx := addAttributes ctx span [namespaceKey; v1.Namespace pod; nameKey; v1.Name pod] in
  ([Infof ctx "UpdatePod %q" [ArgString (v1.Name pod)]], Some notImplemented).

Definition DeletePod `{!trace.Tracer} (p : InstanceProvider) (ctx : Context) (pod : v1.Pod)
  : Logged (option error) :=
  let '(ctx, span) := trace.StartSpan ctx "DeletePod" in
  let ctx := addAttributes ctx span [namespaceKey; v1.Namespace pod; nameKey; v1.Name pod] in
  ([Infof ctx "DeletePod %q" [ArgString (v1.Name pod)]], Some notImplemented).

Definition GetPod `{!trace.Tracer} (p : InstanceProvider) (ctx : Context) (namespace name : string)
  : Logged (option v1.Pod * option error) :=
  let '(ctx, span) := trace.StartSpan ctx "GetPod" in
  let ctx := addAttributes ctx span [namespaceKey; namespace; nameKey; name] in
  ([Infof ctx "GetPod %q" [ArgString name]], (None, Some notImplemented)).

(** The [io.ReadCloser] returned is the text it would yield, [None] for
    [nil]. *)
Definition GetContainerLogs `{!trace.Tracer} (p : InstanceProvider) (ctx : Context)
    (namespace podName containerName : string) (opts : vkapi.ContainerLogOpts)
  : Logged (option string * option error) :=
  let '(ctx, span) := trace.StartSpan ctx "GetContainerLogs" in
  let ctx := addAttributes ctx span [namespaceKey; namespace; nameKey; podName;
                                containerNameKey; containerName] in
  ([Infof ctx "GetContainerLogs %q" [ArgString podName]], (None, Some notImplemented)).

Definition RunInContainer `{!trace.Tracer} (p : InstanceProvider) (ctx : Context)
    (namespace podName containerName : string) (cmd : list string)
    (attach : vkapi.AttachIO) : Logged (option error) :=
  let '(ctx, span) := trace.StartSpan ctx "RunInContainer" in
  let ctx := addAttributes ctx span [namespaceKey; namespace; nameKey; podName;
                                containerNameKey; containerName] in
  ([Infof ctx "RunInContainer %q %v" [ArgString podName; ArgStrings cmd]],
   Some notImplemented).

Definition GetPodStatus `{!trace.Tracer} (p : InstanceProvider) (ctx : Context) (namespace name : string)
  : Logged (option v1.PodStatus * option error) :=
  let '(ctx, span) := trace.StartSpan ctx "GetPodStatus" in
  let ctx := addAttributes ctx span [namespaceKey; namespace; nameKey; name] in
  ([Infof ctx "GetPodStatus %q" [ArgString name]], (None, Some notImplemented)).

(** The slice returned is [None] for [nil]. *)
Definition GetPods `{!trace.Tracer} (p : InstanceProvider) (ctx : Context)
  : Logged (option (list v1.Pod) * option error) :=
  let '(ctx, span) := trace.StartSpan ctx "GetPods" in
  ([Infof ctx "GetPods" []], (None, Some notImplemented)).

(** *** Node status *)

(** [capacity]: the three quantities are parsed with [resource.MustParse],
    so the call panics when one of the configured strings is not a
    quantity. *)
Definition capacity `{!resource.Parser} (p : InstanceProvider) : outcome v1.ResourceList :=
  match MustParse (CPU (config p)) with
  | Panics => Panics
  | Returns cpu =>
      match MustParse (Memory (config p)) with
      | Panics => Panics
      | Returns memory =>
          match MustParse (Pods (config p)) with
          | Panics => Panics
          | Returns pods =>
              Returns (<["cpu" := cpu]> (<["memory" := memory]> (<["pods" := pods]> ∅)))
          end
      end
  end.

(** [nodeConditions].  [now k] is what the [k]-th call of [metav1.Now()]
    made by the function returns. *)
Definition nodeConditions (p : InstanceProvider) (now : nat → time.Time)
  : list v1.NodeCondition :=
  [ {| v1.Type_ := "Ready";
       v1.Status := v1.ConditionTrue;
       v1.LastHeartbeatTime := now 0%nat;
       v1.LastTransitionTime := now 1%nat;
       v1.Reason := "KubeletReady";
       v1.Message := "kubelet is ready" |};
    {| v1.Type_ := "OutOfDisk";
       v1.Status := v1.ConditionFalse;
       v1.LastHeartbeatTime := now 2%nat;
       v1.LastTransitionTime := now 3%nat;
       v1.Reason := "KubeletHasSufficientDisk";
       v1.Message := "kubelet has sufficient disk space available" |};
    {| v1.Type_ := "MemoryPressure";
       v1.Status := v1.ConditionFalse;
       v1.LastHeartbeatTime := now 4%nat;
       v1.LastTransitionTime := now 5%nat;
       v1.Reason := "KubeletHasSufficientMemory";
       v1.Message := "kubelet has sufficient memory available" |};
    {| v1.Type_ := "DiskPressure";
       v1.Status := v1.ConditionFalse;
       v1.LastHeartbeatTime := now 6%nat;
       v1.LastTransitionTime := now 7%nat;
       v1.Reason := "KubeletHasNoDiskPressure";
       v1.Message := "kubelet has no disk pressure" |};
    {| v1.Type_ := "NetworkUnavailable";
       v1.Status := v1.ConditionFalse;
       v1.LastHeartbeatTime := now 8%nat;
       v1.LastTransitionTime := now 9%nat;
       v1.Reason := "RouteCreated";
       v1.Message := "RouteController created a route" |} ].

Definition nodeAddresses (p : InstanceProvider) : list v1.NodeAddress :=
  [ {| v1.AddressType := "InternalIP"; v1.Address := internalIP p |} ].

Definition nodeDaemonEndpoints (p : InstanceProvider) : v1.NodeDaemonEndpoints :=
  {| v1.KubeletEndpoint := {| v1.Port := daemonEndpointPort p |} |}.

(** [n.Status = st], the rest of the node as it is. *)
Definition setStatus (st : v1.NodeStatus) (n : v1.Node) : v1.Node :=
  {| v1.NodeKind := v1.NodeKind n;
     v1.NodeAPIVersion := v1.NodeAPIVersion n;
     v1.NodeName := v1.NodeName n;
     v1.NodeUID := v1.NodeUID n;
     v1.NodeLabels := v1.NodeLabels n;
     v1.NodeAnnotations := v1.NodeAnnotations n;
     v1.Spec := v1.Spec n;
     v1.Status_ := st |}.

(** [ConfigureNode]: the node [n] points to when the call returns.  The
    function assigns seven fields of [n.Status] in place; every other
    field of the node stays as it is. *)
Definition ConfigureNode `{!trace.Tracer} `{!resource.Parser} (p : InstanceProvider)
    (ctx : Context) (now : nat → time.Time) (n : v1.Node) : Logged (outcome v1.Node) :=
  let '(ctx, span) := trace.StartSpan ctx "ConfigureNode" in
  let entries := [Infof ctx "ConfigureNode" []] in
  match capacity p with
  | Panics => (entries, Panics)
  | Returns cap =>
      match capacity p with
      | Panics => (entries, Panics)
      | Returns alloc =>
          let os := operatingSystem p in
          let os := if decide (os = "") then "Linux" else os in
          let st := v1.Status_ n in
          let info := v1.NodeInfo st in
          (entries,
           Returns
             (setStatus
                {| v1.Capacity := cap;
                   v1.Allocatable := alloc;
                   v1.NodePhase := v1.NodePhase st;
                   v1.Conditions := nodeConditions p now;
                   v1.Addresses := nodeAddresses p;
                   v1.DaemonEndpoints := nodeDaemonEndpoints p;
                   v1.NodeInfo :=
                     {| v1.MachineID := v1.MachineID info;
                        v1.SystemUUID := v1.SystemUUID info;
                        v1.BootID := v1.BootID info;
                        v1.KernelVersion := v1.KernelVersion info;
                        v1.OSImage := v1.OSImage info;
                        v1.ContainerRuntimeVersion := v1.ContainerRuntimeVersion info;
                        v1.KubeletVersion := v1.KubeletVersion info;
                        v1.KubeProxyVersion := v1.KubeProxyVersion info;
                        v1.OperatingSystem := os;
                        v1.Architecture := "amd64" |};
                   v1.Images := v1.Images st;
                   v1.VolumesInUse := v1.VolumesInUse st;
                   v1.VolumesAttached := v1.VolumesAttached st;
                   v1.Config := v1.Config st |}
                n))
      end
  end.

(** *** Controllers *)

Module nodemanager.

(** Modelled from the spec: [nodemanager.NodeControllerConfig] is declared
    outside the files embedded here; the fields are those [NewInstanceProvider]
    sets. *)
Record NodeControllerConfig := {
  PoolInterval : time.Duration;
  HeartbeatInterval : time.Duration;
  ReaperInterval : time.Duration;
  ItzoVersion : string;
  ItzoURL : string;
}.

End nodemanager.

(** Modelled from the spec: [GarbageControllerConfig] is declared outside
    the files embedded here; the fields are those [NewInstanceProvider] sets. *)
Record GarbageControllerConfig := {
  CleanInstancesInterval : time.Duration;
  CleanTerminatedInterval : time.Duration;
}.

(** The [Config] of the [nodemanager.NodeController] that
    [NewInstanceProvider] builds; the two strings come from the server
    configuration file. *)
Definition nodeControllerConfig (itzoVersion itzoURL : string)
  : nodemanager.NodeControllerConfig :=
  {| nodemanager.PoolInterval := 7 * time.Second;
     nodemanager.HeartbeatInterval := 10 * time.Second;
     nodemanager.ReaperInterval := 10 * time.Second;
     nodemanager.ItzoVersion := itzoVersion;
     nodemanager.ItzoURL := itzoURL |}.

(** The [config] of the [GarbageController] that [NewInstanceProvider]
    builds. *)
Definition garbageControllerConfig : GarbageControllerConfig :=
  {| CleanInstancesInterval := 60 * time.Second;
     CleanTerminatedInterval := 10 * time.Second |}.

(** ** Logs *)

Module nodeclient.

(** Modelled from the spec: the node agent client is outside the files
    embedded here.  Its log request takes the node asked, the unit, the number
    of lines and the byte limit. *)
Class ItzoClient : Type := GetLogs : api.Node → string → Z → Z → result string.

End nodeclient.

(** A request made to a node agent. *)
Record AgentCall := {
  callNode : string;
  callUnit : string;
  callLines : Z;
  callLimitBytes : Z;
}.

(** Modelled from the spec: the key of a log snapshot in the registry,
    which is the reference to the parent pod or node: its kind, UID and
    name. *)
Definition refKey (r : api.ObjectReference) : string * string * string :=
  (api.RefKind r, api.RefUID r, api.RefName r).

(** Modelled from the spec: the registries are outside the files
    embedded here.  [findLog] reads pods and nodes by name, and logs by the
    reference to their parent: the registry holds the most recent snapshot
    of each parent, keyed by that reference. *)
Record Registries := {
  podRegistry : gmap string api.Pod;
  nodeRegistry : gmap string api.Node;
  logRegistry : gmap (string * string * string) api.LogFile;
}.

(** Modelled from the spec: a snapshot answers a request when no log name
    is given or the name given is its own. *)
Definition logNamed (itemName : string) (f : api.LogFile) : Prop :=
  itemName = "" ∨ api.Name (api.LogObjectMeta f) = itemName.

Global Instance logNamed_dec itemName f : Decision (logNamed itemName f).
Proof. unfold logNamed. apply _. Defined.

(** Modelled from the spec: the lookup of the log registry, outside the
    files embedded here, by the reference to the parent. *)
Definition GetLog (logs : gmap (string * string * string) api.LogFile)
    (parent : api.ObjectReference) (itemName : string) : result api.LogFile :=
  match logs !! refKey parent with
  | Some f => if decide (logNamed itemName f) then Ok f else Err ErrKeyNotFound
  | None => Err ErrKeyNotFound
  end.

(** Modelled from the spec: the lookup for a name that is no registered
    pod, as [TestGetLogFromRegistry] asks for the log of a node by the
    name of the node and of the log: the snapshot of a parent with that
    name. *)
Definition GetLogByName (logs : gmap (string * string * string) api.LogFile)
    (resourceName itemName : string) : result api.LogFile :=
  match list_find (λ kf : string * string * string * api.LogFile,
                     kf.1.2 = resourceName ∧ logNamed itemName kf.2)
                  (map_to_list logs) with
  | Some (_, kf) => Ok kf.2
  | None => Err ErrKeyNotFound
  end.

(** Modelled from the spec: [findLog], the registries and the node agent
    client are outside the files embedded here, only the tests that call
    [findLog] are among them.  For a pod in the [Running] phase the log is
    asked from the agent of the node the pod is bound to and returned with
    the pod as parent; for a pod in another phase the registry fallback
    returns the snapshot stored for the pod.  The result comes with the
    calls made to node agents. *)
Definition findLog `{!nodeclient.ItzoClient} (s : Registries)
    (resourceName itemName : string) (lines limitBytes : Z)
  : list AgentCall * result api.LogFile :=
  match podRegistry s !! resourceName with
  | Some pod =>
      if decide (api.Phase (api.PodStatus_ pod) = api.PodRunning) then
        match nodeRegistry s !! api.BoundNodeName (api.PodStatus_ pod) with
        | Some node =>
            let call := {| callNode := api.Name (api.NodeObjectMeta node);
                           callUnit := itemName;
                           callLines := lines;
                           callLimitBytes := limitBytes |} in
            match nodeclient.GetLogs node itemName lines limitBytes with
            | Ok content =>
                ([call],
                 Ok {| api.LogTypeMeta := {| api.Kind := "Log"; api.APIVersion := "" |};
                       api.LogObjectMeta := {| api.Name := itemName;
                                               api.Namespace := "";
                                               api.UID := "";
                                               api.CreationTimestamp := 0 |};
                       api.ParentObject := api.ToObjectReference pod;
                       api.Content := content |})
            | Err e => ([call], Err e)
            end
        | None => ([], Err ErrKeyNotFound)
        end
      else ([], GetLog (logRegistry s) (api.ToObjectReference pod) itemName)
  | None => ([], GetLogByName (logRegistry s) resourceName itemName)
  end.

(** ** Implementations of the interfaces used in examples *)

(** A tracer whose spans record: the context returned carries the name
    of the span, and [WithField] adds the field for the logger. *)
Definition recordingSpan : trace.Span :=
  {| trace.WithField := λ ctx key value,
       {| ctxSpan := ctxSpan ctx; ctxFields := ctxFields ctx ++ [(key, value)] |} |}.

Definition recordingTracer : trace.Tracer :=
  λ ctx name, ({| ctxSpan := Some name; ctxFields := ctxFields ctx |}, recordingSpan).

(** The tracer that does nothing: the context comes back as it is. *)
Definition nopSpan : trace.Span := {| trace.WithField := λ ctx _ _, ctx |}.

Definition nopTracer : trace.Tracer := λ ctx _, (ctx, nopSpan).

(** The mock agent of the tests answers every request with ["logs"]. *)
Definition mockItzoClient : nodeclient.ItzoClient := λ _ _ _ _, Ok "logs".

(** Files by path. *)
Definition mapFileReader (files : gmap string string) : ioutil.FileReader :=
  λ path,
    match files !! path with
    | Some data => Ok data
    | None => Err (LibraryError "no such file or directory")
    end.

(** A decoder given by the documents it accepts. *)
Definition tableDecoder (docs : gmap string (gmap string ProviderConfig)) : json.Decoder :=
  λ data,
    match docs !! data with
    | Some m => Ok m
    | None => Err (LibraryError "invalid character")
    end.

(** Quoting of a string that has nothing to escape. *)
Definition plainQuoter : strconv.Quoter :=
  λ s, let q := String (Ascii.ascii_of_nat 34) EmptyString in q +:+ s +:+ q.

(** The value of a string of decimal digits. *)
Fixpoint digitsValue (acc : Z) (s : string) : option (Z * string) :=
  match s with
  | EmptyString => Some (acc, EmptyString)
  | String c rest =>
      let d := Z.of_nat (Ascii.nat_of_ascii c) - 48 in
      if (0 <=? d) && (d <=? 9) then digitsValue (10 * acc + d) rest
      else Some (acc, s)
  end.

(** A fragment of the quantity grammar: a whole number, alone or followed
    by [Ki], [Mi] or [Gi]. *)
Definition wholeQuantities : resource.Parser :=
  λ str,
    let bad := Err (LibraryError "quantities must match the regular expression") in
    match str with
    | EmptyString => bad
    | String c _ =>
        let d := Z.of_nat (Ascii.nat_of_ascii c) - 48 in
        if (0 <=? d) && (d <=? 9) then
          match digitsValue 0 str with
          | Some (n, "") =>
              Ok {| resource.unscaled := n; resource.scale := 0;
                    resource.format := resource.DecimalSI |}
          | Some (n, "Ki") =>
              Ok {| resource.unscaled := n * 2 ^ 10; resource.scale := 0;
                    resource.format := resource.BinarySI |}
          | Some (n, "Mi") =>
              Ok {| resource.unscaled := n * 2 ^ 20; resource.scale := 0;
                    resource.format := resource.BinarySI |}
          | Some (n, "Gi") =>
              Ok {| resource.unscaled := n * 2 ^ 30; resource.scale := 0;
                    resource.format := resource.BinarySI |}
          | _ => bad
          end
        else bad
    end.

(** ** Example data *)

Definition eventAt (t : time.Time) : api.Event :=
  {| api.EventTypeMeta := {| api.Kind := "Event"; api.APIVersion := "v1" |};
     api.EventObjectMeta := {| api.Name := "event"; api.Namespace := "default";
                               api.UID := "uid"; api.CreationTimestamp := t |};
     api.InvolvedObject := {| api.RefKind := "Pod"; api.RefUID := "pod-uid";
                              api.RefName := "p1" |};
     api.Status := "";
     api.Source := "PodController";
     api.Message := "" |}.

(** [n] events created at the instants [n-1], ..., [0], newest first. *)
Definition newestFirst (n : nat) : api.EventList :=
  {| api.EventListTypeMeta := {| api.Kind := "EventList"; api.APIVersion := "v1" |};
     api.Items := (λ k : nat, eventAt (Z.of_nat k)) <$> reverse (seq 0 n) |}.

Definition examplePath : string := "/etc/kip/provider.json".

(** The document [{"vk": {"cpu": "8"}}]. *)
Definition exampleData : string :=
  "{" +:+ plainQuoter "vk" +:+ ": {" +:+ plainQuoter "cpu" +:+ ": " +:+
  plainQuoter "8" +:+ "}}".

Definition exampleConfigMap : gmap string ProviderConfig :=
  {[ "vk" := {| CPU := "8"; Memory := ""; Pods := "" |} ]}.

Definition exampleFiles : ioutil.FileReader :=
  mapFileReader {[ examplePath := exampleData ]}.

Definition exampleDecoder : json.Decoder :=
  tableDecoder {[ exampleData := exampleConfigMap ]}.

Definition exampleProvider : InstanceProvider :=
  {| nodeName := "vk";
     operatingSystem := "";
     internalIP := "10.0.0.7";
     daemonEndpointPort := 10250;
     config := {| CPU := "8"; Memory := "100Gi"; Pods := "20" |};
     startTime := 0 |}.

Definition exampleContext : Context := {| ctxSpan := None; ctxFields := [] |}.

Definition exampleNode : v1.Node :=
  {| v1.NodeKind := "Node";
     v1.NodeAPIVersion := "v1";
     v1.NodeName := "vk";
     v1.NodeUID := "uid-vk";
     v1.NodeLabels := {[ "type" := "virtual-kubelet" ]};
     v1.NodeAnnotations := ∅;
     v1.Spec := {| v1.PodCIDR := ""; v1.ProviderID := "kip";
                   v1.Unschedulable := false;
                   v1.Taints := [ {| v1.TaintKey := "virtual-kubelet.io/provider";
                                     v1.TaintValue := "kip";
                                     v1.TaintEffect := "NoSchedule" |} ] |};
     v1.Status_ :=
       {| v1.Capacity := ∅;
          v1.Allocatable := ∅;
          v1.NodePhase := "Running";
          v1.Conditions := [];
          v1.Addresses := [];
          v1.DaemonEndpoints := {| v1.KubeletEndpoint := {| v1.Port := 0 |} |};
          v1.NodeInfo := {| v1.MachineID := "machine"; v1.SystemUUID := "";
                            v1.BootID := ""; v1.KernelVersion := "";
                            v1.OSImage := ""; v1.ContainerRuntimeVersion := "";
                            v1.KubeletVersion := "v1.14"; v1.KubeProxyVersion := "";
                            v1.OperatingSystem := ""; v1.Architecture := "" |};
          v1.Images := [ {| v1.Names := ["kip:latest"]; v1.SizeBytes := 1024 |} ];
          v1.VolumesInUse := [];
          v1.VolumesAttached := [];
          v1.Config := None |} |}.

(** The log fallback scenario: pod [p2] waits, and a log of it is stored. *)
Definition podP2 : api.Pod :=
  {| api.PodTypeMeta := {| api.Kind := "Pod"; api.APIVersion := "v1" |};
     api.PodObjectMeta := {| api.Name := "p2"; api.Namespace := "default";
                             api.UID := "uid-p2"; api.CreationTimestamp := 0 |};
     api.PodStatus_ := {| api.Phase := api.PodWaiting; api.BoundNodeName := "";
                          api.BoundInstanceID := "" |} |}.

Definition logP2 : api.LogFile :=
  {| api.LogTypeMeta := {| api.Kind := "Log"; api.APIVersion := "v1" |};
     api.LogObjectMeta := {| api.Name := "log-p2"; api.Namespace := "default";
                             api.UID := "uid-log"; api.CreationTimestamp := 5 |};
     api.ParentObject := api.ToObjectReference podP2;
     api.Content := "Old pod log lines" |}.

Definition registriesP2 : Registries :=
  {| podRegistry := {[ "p2" := podP2 ]};
     nodeRegistry := ∅;
     logRegistry := {[ refKey (api.ToObjectReference podP2) := logP2 ]} |}.

(** ** Definitions used to state further properties *)

(** The pairs [(attrs[0], attrs[1])], [(attrs[2], attrs[3])], ... that the
    loop of [addAttributes] visits. *)
Fixpoint attributePairs (attrs : list string) : list (string * string) :=
  match attrs with
  | k :: v :: rest => (k, v) :: attributePairs rest
  | _ => []
  end.

(** A span whose [WithField] adds the field to those of the context. *)
Definition appendsField (span : trace.Span) : Prop :=
  ∀ c k v, ctxSpan (trace.WithField span c k v) = ctxSpan c ∧
           ctxFields (trace.WithField span c k v) = ctxFields c ++ [(k, v)].

(** The node [n] with the seven fields that [ConfigureNode] assigns taken
    from the status [a] and the rest as it is: a node that differs from
    [n] at most where [ConfigureNode] writes. *)
Definition withAssigned (a : v1.NodeStatus) (n : v1.Node) : v1.Node :=
  let st := v1.Status_ n in
  let info := v1.NodeInfo st in
  setStatus
    {| v1.Capacity := v1.Capacity a;
       v1.Allocatable := v1.Allocatable a;
       v1.NodePhase := v1.NodePhase st;
       v1.Conditions := v1.Conditions a;
       v1.Addresses := v1.Addresses a;
       v1.DaemonEndpoints := v1.DaemonEndpoints a;
       v1.NodeInfo :=
         {| v1.MachineID := v1.MachineID info;
            v1.SystemUUID := v1.SystemUUID info;
            v1.BootID := v1.BootID info;
            v1.KernelVersion := v1.KernelVersion info;
            v1.OSImage := v1.OSImage info;
            v1.ContainerRuntimeVersion := v1.ContainerRuntimeVersion info;
            v1.KubeletVersion := v1.KubeletVersion info;
            v1.KubeProxyVersion := v1.KubeProxyVersion info;
            v1.OperatingSystem := v1.OperatingSystem (v1.NodeInfo a);
            v1.Architecture := v1.Architecture (v1.NodeInfo a) |};
       v1.Images := v1.Images st;
       v1.VolumesInUse := v1.VolumesInUse st;
       v1.VolumesAttached := v1.VolumesAttached st;
       v1.Config := v1.Config st |}
    n.

(** What a store promises a single client: a pair created by [AtomicPut]
    with no previous pair is the one [Get] then finds under the key. *)
Class SimpleEtcdLaws (St : Type) `{!etcd.SimpleEtcd St} : Prop := {
  AtomicPut_Get :
    ∀ (st st' : St) (key value : string) (ok : bool) (kv : option store.KVPair),
      etcd.AtomicPut st key value None None = (st', (ok, kv, None)) →
      ∃ stored, etcd.Get st' key = Ok stored ∧ store.Value stored = value;
}.

(** ** The helpers of [kipctl] *)

Module clientapi.

(** Modelled from the spec: [clientapi.APIReply] is declared outside the
    files embedded here; these are the fields the helpers read, an [int32]
    status and the bytes of the body. *)
Record APIReply := {
  Status : Z;
  Body : string;
}.

End clientapi.

Module fmt.

(** A value handed to a formatting function. *)
Inductive Value : Type :=
| VString (s : string)
| VInt (n : Z)
| VBytes (b : string)
| VStrings (l : list string).

(** [fmt.Sprintf]. *)
Class Formatter : Type := Sprintf : string → list Value → string.

End fmt.

Module strings.

(** [strings.HasSuffix(s, suffix)], which is
    [len(s) >= len(suffix) && s[len(s)-len(suffix):] == suffix]. *)
Definition HasSuffix (s suffix : string) : bool :=
  (String.length suffix <=? String.length s)%nat &&
  String.eqb
    (String.substring (String.length s - String.length suffix)
                      (String.length suffix) s)
    suffix.

End strings.

Module kipctl.

(** The line feed, ["\n"]. *)
Definition newline : string := String (Ascii.ascii_of_nat 10) EmptyString.

(** The end of the process in [os.Exit]: the exit status and what was
    written to the standard error before. *)
Record Exit := {
  stderr : string;
  exitCode : Z;
}.

(** [fatal] does not return: it writes the message and exits. *)
Definition fatal `{!fmt.Formatter} (format : string) (v : list fmt.Value) : Exit :=
  let msg := fmt.Sprintf format v in
  let msg := if negb (strings.HasSuffix msg newline) then msg +:+ newline else msg in
  {| stderr := msg; exitCode := 1 |}.

(** [dieIfReplyError]: [None] when the function returns, the exit
    otherwise. *)
Definition dieIfReplyError `{!fmt.Formatter} (cmd : string)
    (reply : clientapi.APIReply) : option Exit :=
  if (clientapi.Status reply <? 200) || (clientapi.Status reply >=? 400) then
    Some (fatal "%s returned %d - %s"
                [fmt.VString cmd; fmt.VInt (clientapi.Status reply);
                 fmt.VBytes (clientapi.Body reply)])
  else None.

(** [dieIfError]: [None] when the function returns, the exit otherwise.
    The message built is handed to [fatal] as its format. *)
Definition dieIfError `{!fmt.Formatter} (err : option error) (format : string)
    (args : list fmt.Value) : option Exit :=
  match err with
  | Some e =>
      let s := fmt.Sprintf format args in
      let msg := s +:+ ": " +:+ Error e in
      Some (fatal msg [])
  | None => None
  end.

(** A formatter that prints the format as it is, for formats without
    verbs. *)
Definition verbatim : fmt.Formatter := λ format _, format.

End kipctl.

(** ** The generated client of the group [kiyot.elotl.co] *)

Module schema.

Record GroupVersion := {
  Group : string;
  Version : string;
}.

End schema.

Module rest.

(** The interface types of package [rest] that the client holds:
    [rest.Interface] and [runtime.NegotiatedSerializer]. *)
Class Types : Type := {
  Interface : Type;
  NegotiatedSerializer : Type;
}.

(** [rest.Config], by the fields the client sets and some it leaves.  The
    group version is a pointer and the serializer an interface, [None]
    when nil. *)
Record Config `{!Types} := {
  Host : string;
  APIPath : string;
  GroupVersion : option schema.GroupVersion;
  Serializer : option NegotiatedSerializer;
  UserAgent : string;
  BearerToken : string;
}.

(** [rest.RESTClientFor] and [rest.DefaultKubernetesUserAgent()]. *)
Class Client `{!Types} : Type := {
  RESTClientFor : Config → result Interface;
  DefaultKubernetesUserAgent : string;
}.

End rest.

Module v1beta2.

(** What the client takes from the packages of the API group, outside the
    files embedded here: [v1beta2.SchemeGroupVersion] and
    [scheme.Codecs.WithoutConversion()]. *)
Class Scheme `{!rest.Types} : Type := {
  SchemeGroupVersion : schema.GroupVersion;
  CodecsWithoutConversion : rest.NegotiatedSerializer;
}.

Section Client.

Context `{!rest.Types} `{!rest.Client} `{!Scheme}.

(** [KiyotV1beta2Client]; the [rest.Interface] held is [None] when nil. *)
Record KiyotV1beta2Client := {
  restClient : option rest.Interface;
}.

(** [setConfigDefaults]: the configuration the pointer refers to after the
    call, and the error returned. *)
Definition setConfigDefaults (config : rest.Config) : rest.Config * option error :=
  let gv := SchemeGroupVersion in
  ({| rest.Host := rest.Host config;
      rest.APIPath := "/apis";
      rest.GroupVersion := Some gv;
      rest.Serializer := Some CodecsWithoutConversion;
      rest.UserAgent :=
        if decide (rest.UserAgent config = "")
        then rest.DefaultKubernetesUserAgent
        else rest.UserAgent config;
      rest.BearerToken := rest.BearerToken config |},
   None).

(** [NewForConfig] works on a copy of [*c]. *)
Definition NewForConfig (c : rest.Config) : result KiyotV1beta2Client :=
  let config := c in
  match setConfigDefaults config with
  | (_, Some err) => Err err
  | (config, None) =>
      match rest.RESTClientFor config with
      | Err err => Err err
      | Ok client => Ok {| restClient := Some client |}
      end
  end.

Definition NewForConfigOrDie (c : rest.Config) : outcome KiyotV1beta2Client :=
  match NewForConfig c with
  | Err _ => Panics
  | Ok client => Returns client
  end.

Definition New (c : option rest.Interface) : KiyotV1beta2Client :=
  {| restClient := c |}.

(** [RESTClient], a method that accepts the nil receiver. *)
Definition RESTClient (c : option KiyotV1beta2Client) : option rest.Interface :=
  match c with
  | None => None
  | Some c => restClient c
  end.

End Client.

End v1beta2.

(** ** Start of the provider *)

(** Modelled from the spec: the server configuration file is declared
    outside the files embedded here; these are the recognized keys that
    [NewInstanceProvider] reads. *)
Record ServerConfigFile := {
  EtcdInternalConfigFile : string;
  EtcdInternalDataDir : string;
  TestingControllerID : string;
  NodesNametag : string;
  NodesDefaultInstanceType : string;
  NodesBootImageTags : string;
  NodesItzoVersion : string;
  NodesItzoURL : string;
}.

(** Modelled from the spec: [cloud.CloudAttributes], what
    [GetAttributes()] of a cloud client returns. *)
Record CloudAttributes := {
  Provider : string;
  Region : string;
  FixedSizeVolume : bool;
}.

(** What [NewInstanceProvider] and [setupEtcd] call in the other packages
    of the repository, over the state [St] of the store: the functions and
    what they return.  A list of strings stands for a [field.ErrorList]. *)
Class Environment (St : Type) : Type := {
  Cloud : Type;
  CertFactory : Type;
  ParseConfig : string → result ServerConfigFile;
  validateServerConfigFile : ServerConfigFile → list string;
  ToAggregate : list string → string;
  EtcdServerStart : string → string → result St;
  PutNoTimeout : St → string → string → store.WriteOptions → St * option error;
  WrapError : error → string → error;
  getControllerID : St → St * result string;
  certsNew : St → St * result CertFactory;
  CreateClientCert : CertFactory → result string;
  ConfigureCloud : ServerConfigFile → string → string → result Cloud;
  GetAttributes : Cloud → CloudAttributes;
  ControllerInsideVPC : Cloud → bool;
  isAzureClient : Cloud → bool;
  instanceselectorSetup : string → string → string → option error;
  ValidateInstanceType : string → list string;
  validateBootImageTags : string → Cloud → option error;
  timeNow : time.Time;
}.

(** How a call of [NewInstanceProvider] ends: it returns the provider, it
    returns an error, or the process exits. *)
Inductive startup (A : Type) : Type :=
| Started (a : A)
| ReturnsError (e : error)
| ExitsProcess (code : Z).
Global Arguments Started {A} a.
Global Arguments ReturnsError {A} e.
Global Arguments ExitsProcess {A} code.

Global Instance startup_bind : MBind startup := λ A B k m,
  match m with
  | Started a => k a
  | ReturnsError e => ReturnsError e
  | ExitsProcess code => ExitsProcess code
  end.

(** [if err != nil { glog.Errorf(...); os.Exit(1) }] *)
Definition orExit {A : Type} (r : result A) : startup A :=
  match r with
  | Ok a => Started a
  | Err _ => ExitsProcess 1
  end.

Definition errOrExit (err : option error) : startup () :=
  match err with
  | None => Started ()
  | Some _ => ExitsProcess 1
  end.

(** What [NewInstanceProvider] has built when it returns: the provider by
    the fields its methods read, and the rest of what it holds, with the
    registries and the controllers by their keys. *)
Record Server (St : Type) `{!Environment St} := {
  provider : InstanceProvider;
  KV : gset string;
  cloudClient : Cloud;
  etcdClient : St;
  Controllers : gset string;
  controllerID : string;
  nametag : string;
  usePublicIPs : bool;
  nodeController : nodemanager.NodeControllerConfig;
  garbageController : GarbageControllerConfig;
}.
Global Arguments provider {St _} s.
Global Arguments KV {St _} s.
Global Arguments cloudClient {St _} s.
Global Arguments etcdClient {St _} s.
Global Arguments Controllers {St _} s.
Global Arguments controllerID {St _} s.
Global Arguments nametag {St _} s.
Global Arguments usePublicIPs {St _} s.
Global Arguments nodeController {St _} s.
Global Arguments garbageController {St _} s.

Section Startup.

Context {St : Type} `{!etcd.SimpleEtcd St} `{!Environment St}.
Context `{!strconv.Quoter} `{!ioutil.FileReader} `{!json.Decoder} `{!resource.Parser}.

(** [validateWriteToEtcd]: the state of the store after the write, and the
    error. *)
Definition validateWriteToEtcd (client : St) : St * option error :=
  let wo := {| store.IsDir := false; store.TTL := 2 * time.Second |} in
  match PutNoTimeout client "/milpa/startup" "OK" wo with
  | (client, Some err) => (client, Some err)
  | (client, None) => (client, None)
  end.

(** [setupEtcd]: the client of the server started, or the error. *)
Definition setupEtcd (configFile dataDir : string) : result St :=
  match EtcdServerStart configFile dataDir with
  | Err err => Err (WrapError err "Error creating internal etcd storage backend")
  | Ok client =>
      match validateWriteToEtcd client with
      | (_, Some err) => Err (WrapError err "Fatal Error: Could not write to etcd")
      | (client, None) => Ok client
      end
  end.

(** [NewInstanceProvider].  The goroutines it starts and the lines it logs
    are left out; what is kept is every call whose result decides how the
    function ends, in the order of the code, and what is built. *)
Definition NewInstanceProvider (nodeName operatingSystem internalIP
    configFilePath : string) (daemonEndpointPort : Z) : startup (Server St) :=
  match loadProviderConfig configFilePath nodeName with
  | (_, Some err) => ReturnsError err
  | (providerConfig, None) =>
      serverConfigFile ← orExit (ParseConfig configFilePath);
      let errs := validateServerConfigFile serverConfigFile in
      if decide (0 < length errs)%nat then
        ReturnsError (Errorf ("Invalid Server Config: " +:+ ToAggregate errs))
      else
      etcdClient ← orExit (setupEtcd (EtcdInternalConfigFile serverConfigFile)
                                     (EtcdInternalDataDir serverConfigFile));
      let '(etcdClient, id) := getControllerID etcdClient in
      controllerID ← orExit id;
      let controllerID :=
        if decide (TestingControllerID serverConfigFile ≠ "")
        then TestingControllerID serverConfigFile else controllerID in
      let nametag := NodesNametag serverConfigFile in
      let nametag := if decide (nametag = "") then controllerID else nametag in
      let '(etcdClient, factory) := certsNew etcdClient in
      certFactory ← orExit factory;
      cloudClient ← orExit (ConfigureCloud serverConfigFile controllerID nametag);
      let cloudRegion := Region (GetAttributes cloudClient) in
      let '(etcdClient, err) := ensureRegionUnchanged etcdClient cloudRegion in
      _ ← errOrExit err;
      clientCert ← orExit (CreateClientCert certFactory);
      _ ← errOrExit (instanceselectorSetup (Provider (GetAttributes cloudClient))
                       cloudRegion (NodesDefaultInstanceType serverConfigFile));
      let errs := ValidateInstanceType (NodesDefaultInstanceType serverConfigFile) in
      if decide (0 < length errs)%nat then ExitsProcess 1 else
      let kv : gset string := {[ "Pod"; "Node"; "Event"; "Log"; "Metric" ]} in
      let usePublicIPs := negb (ControllerInsideVPC cloudClient) in
      let controllers : gset string :=
        {[ "PodController"; "NodeController"; "GarbageController";
           "MetricsController" ]} in
      let controllers :=
        if isAzureClient cloudClient
        then {[ "ImageController" ]} ∪ controllers else controllers in
      let s :=
        {| provider :=
             {| nodeName := nodeName;
                operatingSystem := operatingSystem;
                internalIP := internalIP;
                daemonEndpointPort := daemonEndpointPort;
                config := providerConfig;
                startTime := timeNow |};
           KV := kv;
           cloudClient := cloudClient;
           etcdClient := etcdClient;
           Controllers := controllers;
           controllerID := controllerID;
           nametag := nametag;
           usePublicIPs := usePublicIPs;
           nodeController :=
             nodeControllerConfig (NodesItzoVersion serverConfigFile)
                                  (NodesItzoURL serverConfigFile);
           garbageController := garbageControllerConfig |} in
      _ ← errOrExit (validateBootImageTags (NodesBootImageTags serverConfigFile)
                                           cloudClient);
      Started s
  end.

End Startup.

(** ** Further example data *)

(** A second implementation of the sort interface: merge sort of the
    reversed slice, which leaves equal elements in another order. *)
Definition reverseMergeSorter : SliceSorter :=
  λ A less l, merge_sort (not_after less) (reverse l).

Definition exampleRestTypes : rest.Types :=
  {| rest.Interface := string; rest.NegotiatedSerializer := string |}.

(** A REST layer that refuses a configuration without a host. *)
Definition exampleRestClient : @rest.Client exampleRestTypes :=
  {| rest.RESTClientFor := λ c : @rest.Config exampleRestTypes,
       if decide (rest.Host c = "")
       then Err (LibraryError "host must be a URL or a host:port pair")
       else Ok (rest.Host c +:+ rest.APIPath c : @rest.Interface exampleRestTypes);
     rest.DefaultKubernetesUserAgent := "kip/v0.0.0 (linux/amd64) kubernetes/unknown" |}.

Definition exampleScheme : @v1beta2.Scheme exampleRestTypes :=
  {| v1beta2.SchemeGroupVersion :=
       {| schema.Group := "kiyot.elotl.co"; schema.Version := "v1beta2" |};
     v1beta2.CodecsWithoutConversion := "codecs" : @rest.NegotiatedSerializer exampleRestTypes |}.

Definition exampleRestConfig : @rest.Config exampleRestTypes :=
  {| rest.Host := "https://10.0.0.1:6443";
     rest.APIPath := "";
     rest.GroupVersion := None;
     rest.Serializer := None;
     rest.UserAgent := "";
     rest.BearerToken := "token" |}.

Definition exampleServerConfig : ServerConfigFile :=
  {| EtcdInternalConfigFile := "";
     EtcdInternalDataDir := "/opt/kip/data";
     TestingControllerID := "";
     NodesNametag := "";
     NodesDefaultInstanceType := "t3.nano";
     NodesBootImageTags := "company=elotl";
     NodesItzoVersion := "latest";
     NodesItzoURL := "https://itzo.example" |}.

(** An environment in which every step of the start succeeds: an empty
    in-memory store and a cloud client in [us-east-1]. *)
Definition exampleEnvironment : Environment etcd.Mem :=
  {| Cloud := CloudAttributes;
     CertFactory := ();
     ParseConfig := λ path,
       if decide (path = examplePath) then Ok exampleServerConfig
       else Err (LibraryError "no such file or directory");
     validateServerConfigFile := λ _, [];
     ToAggregate := λ errs, foldr (λ e acc, e +:+ "; " +:+ acc) "" errs;
     EtcdServerStart := λ _ _, Ok {| etcd.data := ∅; etcd.outage := None |};
     PutNoTimeout := λ m key value _,
       match etcd.outage m with
       | Some e => (m, Some e)
       | None => ({| etcd.data := <[key := value]> (etcd.data m);
                     etcd.outage := None |}, None)
       end;
     WrapError := λ e msg, Errorf (msg +:+ ": " +:+ Error e);
     getControllerID := λ m, (m, Ok "controller-1");
     certsNew := λ m, (m, Ok ());
     CreateClientCert := λ _, Ok "certificate";
     ConfigureCloud := λ _ _ _,
       Ok {| Provider := "aws"; Region := "us-east-1"; FixedSizeVolume := false |};
     GetAttributes := λ c, c;
     ControllerInsideVPC := λ _, true;
     isAzureClient := λ c, String.eqb (Provider c) "azure";
     instanceselectorSetup := λ _ _ _, None;
     ValidateInstanceType := λ _, [];
     validateBootImageTags := λ _ _, None;
     timeNow := 1600000000 * time.Second |}.

(** The start of the provider of node [vk] in the example environment. *)
Definition exampleStart : startup (@Server etcd.Mem exampleEnvironment) :=
  @NewInstanceProvider etcd.Mem etcd.memEtcd exampleEnvironment plainQuoter
    exampleFiles exampleDecoder wholeQuantities "vk" "" "10.0.0.7" examplePath 10250.

(** * Properties *)

(** ** Sorting *)

Lemma mergeSorter_laws : @SliceSorterLaws mergeSorter.
Proof.
  split.
  - intros A less l. apply merge_sort_Permutation.
  - intros A less l Hswo.
    assert (Total (not_after less)).
    { intros x y. unfold not_after.
      destruct (less y x) eqn:Hyx; [right | left; reflexivity].
      by apply (swo_asym less Hswo). }
    assert (Transitive (not_after less)).
    { intros x y z Hxy Hyz. by apply (swo_co_trans less Hswo x y z). }
    apply StronglySorted_merge_sort; assumption.
Qed.

Lemma createdBefore_swo : StrictWeakOrder createdBefore.
Proof.
  split; unfold createdBefore, time.Before; intros; lia.
Qed.

Lemma not_after_createdBefore (a b : api.Event) :
  not_after createdBefore a b ↔ created a ≤ created b.
Proof. unfold not_after, createdBefore, time.Before. lia. Qed.

Lemma StronglySorted_weaken {A : Type} (R1 R2 : relation A) (l : list A) :
  (∀ x y, R1 x y → R2 x y) → StronglySorted R1 l → StronglySorted R2 l.
Proof.
  intros Himpl. induction 1 as [| a l Hl IH Hall]; constructor; [exact IH |].
  eapply Forall_impl; [exact Hall | auto].
Qed.

Section FilterEventList.

Context `{!SliceSorter} `{!SliceSorterLaws}.

Lemma sort_Slice_length {A : Type} (less : A → A → bool) (l : list A) :
  length (sort_Slice less l) = length l.
Proof. apply Permutation_length, sort_Slice_Permutation. Qed.

Lemma MaxEventListSize_nonneg : 0 ≤ MaxEventListSize.
Proof. unfold MaxEventListSize. lia. Qed.

(** What [filterEventList] does to a list within the bound, and to one
    beyond it. *)
Lemma filterEventList_small (l : api.EventList) :
  Z.of_nat (length (api.Items l)) ≤ MaxEventListSize →
  filterEventList (Some l) = Some l.
Proof.
  intros Hle. unfold filterEventList.
  destruct (Z.gtb_spec (Z.of_nat (length (api.Items l))) MaxEventListSize); [lia | done].
Qed.

Lemma filterEventList_large (l : api.EventList) :
  Z.of_nat (length (api.Items l)) > MaxEventListSize →
  filterEventList (Some l) =
    Some {| api.EventListTypeMeta := api.EventListTypeMeta l;
            api.Items :=
              drop (length (api.Items l) - Z.to_nat MaxEventListSize)
                   (sort_Slice createdBefore (api.Items l)) |}.
Proof.
  intros Hgt. unfold filterEventList, slice_from.
  destruct (Z.gtb_spec (Z.of_nat (length (api.Items l))) MaxEventListSize); [| lia].
  rewrite sort_Slice_length. do 3 f_equal.
  pose proof MaxEventListSize_nonneg. lia.
Qed.

(** C1: for a list with more than [MaxEventListSize] items,
    [filterEventList] returns the list whose items are the tail [kept] of
    the items sorted ascending by [CreationTimestamp]: [MaxEventListSize]
    items, which together with the head [dropped] are the items given, and
    none of which is older than a dropped one. *)
Theorem filterEventList_keeps_newest (l : api.EventList) :
  Z.of_nat (length (api.Items l)) > MaxEventListSize →
  ∃ dropped kept : list api.Event,
    filterEventList (Some l) =
      Some {| api.EventListTypeMeta := api.EventListTypeMeta l; api.Items := kept |} ∧
    sort_Slice createdBefore (api.Items l) = dropped ++ kept ∧
    StronglySorted (λ a b, created a ≤ created b) (dropped ++ kept) ∧
    Z.of_nat (length kept) = MaxEventListSize ∧
    dropped ++ kept ≡ₚ api.Items l ∧
    ∀ d k, d ∈ dropped → k ∈ kept → created d ≤ created k.
Proof.
  intros Hgt.
  set (sorted := sort_Slice createdBefore (api.Items l)).
  set (n := (length (api.Items l) - Z.to_nat MaxEventListSize)%nat).
  assert (Hsorted : StronglySorted (λ a b, created a ≤ created b) sorted).
  { apply (StronglySorted_weaken (not_after createdBefore)).
    - intros a b. apply not_after_createdBefore.
    - apply sort_Slice_Sorted, createdBefore_swo. }
  exists (take n sorted), (drop n sorted).
  split; [by apply filterEventList_large |].
  rewrite take_drop.
  split; [done |]. split; [done |]. split.
  { rewrite length_drop. subst sorted n. rewrite sort_Slice_length.
    pose proof MaxEventListSize_nonneg. lia. }
  split; [apply sort_Slice_Permutation |].
  intros d k Hd Hk.
  rewrite <- (take_drop n sorted) in Hsorted.
  by apply (StronglySorted_app_1_elem_of _ _ _ d k Hsorted).
Qed.

(** C2: [filterEventList] is idempotent, the list it returns for a non-nil
    list has [min (len(list.Items), MaxEventListSize)] items, and
    [MaxEventListSize] is 4000. *)
Theorem filterEventList_idempotent_size :
  (∀ eventList : option api.EventList,
     filterEventList (filterEventList eventList) = filterEventList eventList) ∧
  (∀ l : api.EventList,
     ∃ l' : api.EventList,
       filterEventList (Some l) = Some l' ∧
       Z.of_nat (length (api.Items l')) =
         Z.min (Z.of_nat (length (api.Items l))) MaxEventListSize) ∧
  MaxEventListSize = 4000.
Proof.
  assert (Hsize : ∀ l : api.EventList,
     ∃ l' : api.EventList,
       filterEventList (Some l) = Some l' ∧
       Z.of_nat (length (api.Items l')) =
         Z.min (Z.of_nat (length (api.Items l))) MaxEventListSize).
  { intros l.
    destruct (Z_le_gt_dec (Z.of_nat (length (api.Items l))) MaxEventListSize) as [Hle | Hgt].
    - exists l. split; [by apply filterEventList_small | lia].
    - eexists. split; [by apply filterEventList_large |].
      cbn. rewrite length_drop, sort_Slice_length.
      pose proof MaxEventListSize_nonneg. lia. }
  split; [| split; [exact Hsize | reflexivity]].
  intros [l |]; [| reflexivity].
  destruct (Hsize l) as (l' & -> & Hlen).
  apply filterEventList_small. lia.
Qed.

End FilterEventList.

(** C9: [filterReplyObject] returns every object that is not a
    [*api.EventList] as it is, and an [*api.EventList] as
    [filterEventList] returns it. *)
Theorem filterReplyObject_other_kinds `{!SliceSorter} (obj : api.MilpaObject) :
  (∀ v, obj ≠ api.EventListObject v) →
  filterReplyObject obj = obj ∧
  ∀ v, filterReplyObject (api.EventListObject v) = api.EventListObject (filterEventList v).
Proof.
  intros Hother. split; [| reflexivity].
  destruct obj; try reflexivity. by destruct (Hother l).
Qed.

(** ** The cluster region *)

Lemma contains_middle (pre sub post : string) : contains (pre +:+ sub +:+ post) sub.
Proof. by exists pre, post. Qed.

Lemma string_app_assoc (a b c : string) : (a +:+ b) +:+ c = a +:+ (b +:+ c).
Proof.
  induction a as [| ch a IH]; [reflexivity |].
  change (String ch ((a +:+ b) +:+ c) = String ch (a +:+ b +:+ c)).
  by rewrite IH.
Qed.

(** The message of the region error names the saved and the new region. *)
Lemma region_message_contains (savedRegion region : string) :
  let msg := "Error: region has changed from " +:+ savedRegion +:+
             " to " +:+ region +:+ ". " +:+
             "This is unsupported. " +:+
             "Please delete all cluster resources and rename your cluster." in
  contains msg savedRegion ∧ contains msg region.
Proof.
  cbv zeta. split.
  - apply contains_middle.
  - eexists ("Error: region has changed from " +:+ savedRegion +:+ " to "), _.
    rewrite !string_app_assoc. reflexivity.
Qed.

(** C3, as the code has it: [ensureRegionUnchanged] returns an error
    exactly when a region is stored and differs from the cloud's (the
    message then contains both), or when the read fails with an error
    other than [store.ErrKeyNotFound] (returned as it is), or when no
    region is stored and the write of the cloud's region fails (returned
    as it is).  With no region stored it writes the cloud's region with
    [AtomicPut] and returns what the write returns; with a stored region
    it never writes, and succeeds when the two match. *)
Theorem ensureRegionUnchanged_cases {St : Type} `{!etcd.SimpleEtcd St}
    (etcdClient : St) (region : string) :
  let read := etcd.Get etcdClient etcdClusterRegionPath in
  let write := etcd.AtomicPut etcdClient etcdClusterRegionPath region None None in
  let ret := ensureRegionUnchanged etcdClient region in
  (∀ kv, read = Ok kv → store.Value kv ≠ region →
     ∃ msg, ret = (etcdClient, Some (Errorf msg)) ∧
            contains msg (store.Value kv) ∧ contains msg region) ∧
  (∀ kv, read = Ok kv → store.Value kv = region → ret = (etcdClient, None)) ∧
  (read = Err ErrKeyNotFound → ret = (write.1, write.2.2)) ∧
  (∀ e, read = Err e → e ≠ ErrKeyNotFound → ret = (etcdClient, Some e)) ∧
  (is_Some ret.2 ↔
     (∃ kv, read = Ok kv ∧ store.Value kv ≠ region) ∨
     (∃ e, read = Err e ∧ e ≠ ErrKeyNotFound) ∨
     (read = Err ErrKeyNotFound ∧ is_Some write.2.2)).
Proof.
  cbv zeta. unfold ensureRegionUnchanged.
  destruct (etcd.Get etcdClient etcdClusterRegionPath) as [kv | e] eqn:Hread.
  - destruct (decide (region ≠ store.Value kv)) as [Hne | Heq].
    + repeat split.
      * intros kv' [= <-] _. eexists. split; [reflexivity |].
        apply region_message_contains.
      * intros kv' [= <-] Hsame. by destruct Hne.
      * discriminate.
      * discriminate.
      * intros _. left. exists kv. split; [done | congruence].
      * intros _. by eexists.
    + apply dec_stable in Heq. repeat split.
      * intros kv' [= <-] Hne. by destruct Hne.
      * discriminate.
      * discriminate.
      * intros [? [=]].
      * intros [(kv' & [= <-] & Hne) | [(e & [=] & _) | ([=] & _)]].
        by destruct Hne.
  - destruct (decide (e ≠ ErrKeyNotFound)) as [Hne | Heq].
    + repeat split; try discriminate.
      * intros [= ->]. by destruct Hne.
      * by intros e' [= <-] _.
      * intros _. right. left. by exists e.
      * intros _. by eexists.
    + apply dec_stable in Heq. subst e.
      destruct (etcd.AtomicPut etcdClient etcdClusterRegionPath region None None)
        as [c' [[ok kv] err]] eqn:Hwrite.
      cbn. repeat split; try discriminate.
      * intros e' [= <-] Hne. by destruct Hne.
      * intros Herr. right. right. by split.
      * intros [(kv' & [=] & _) | [(e & [= <-] & Hne) | (_ & Herr)]];
          [by destruct Hne | exact Herr].
Qed.

(** The claim of C3 as the specification words it fails when the store
    cannot be reached: the read fails, the error is returned, and no
    region is stored that differs from the cloud's. *)
Lemma ensureRegionUnchanged_read_failure :
  let m := {| etcd.data := ∅;
              etcd.outage := Some (LibraryError "context deadline exceeded") |} in
  ¬ (is_Some (ensureRegionUnchanged m "us-west-2").2 ↔
     ∃ saved, etcd.data m !! etcdClusterRegionPath = Some saved ∧
              saved ≠ "us-west-2").
Proof.
  intros m [Herr _].
  destruct Herr as (saved & Hstored & _); [by eexists | discriminate Hstored].
Qed.

(** The region mismatch scenario: the store holds [us-east-1], the cloud
    reports [us-west-2]. *)
Lemma region_mismatch_at_startup :
  let m := {| etcd.data := {[ etcdClusterRegionPath := "us-east-1" ]};
              etcd.outage := None |} in
  ∃ msg, ensureRegionUnchanged m "us-west-2" = (m, Some (Errorf msg)) ∧
         contains msg "us-east-1" ∧ contains msg "us-west-2".
Proof.
  intros m.
  destruct (ensureRegionUnchanged_cases m "us-west-2") as [Hdiffers _].
  apply (Hdiffers {| store.Key := etcdClusterRegionPath;
                     store.Value := "us-east-1";
                     store.LastIndex := 0 |});
    [vm_compute; reflexivity | discriminate].
Defined.

(** On the in-memory store that can be reached, the claim holds as the
    specification words it, and the first start writes the region. *)
Lemma ensureRegionUnchanged_mem_reachable (m : etcd.Mem) (region : string) :
  etcd.outage m = None →
  (is_Some (ensureRegionUnchanged m region).2 ↔
     ∃ saved, etcd.data m !! etcdClusterRegionPath = Some saved ∧ saved ≠ region) ∧
  (etcd.data m !! etcdClusterRegionPath = None →
     ∃ m', ensureRegionUnchanged m region = (m', None) ∧
           etcd.data m' !! etcdClusterRegionPath = Some region) ∧
  (etcd.data m !! etcdClusterRegionPath = Some region →
     ensureRegionUnchanged m region = (m, None)).
Proof.
  intros Hup. unfold ensureRegionUnchanged.
  cbn [etcd.Get etcd.AtomicPut etcd.memEtcd]. unfold etcd.memGet, etcd.memAtomicPut.
  rewrite Hup.
  destruct (etcd.data m !! etcdClusterRegionPath) as [saved |] eqn:Hdata; cbn.
  - destruct (decide (region ≠ saved)) as [Hne | Heq]; cbn.
    + repeat split; try discriminate.
      * intros _. exists saved. split; [done | congruence].
      * by eexists.
      * intros [= ->]. by destruct Hne.
    + apply dec_stable in Heq. subst saved. repeat split; try discriminate.
      * intros [? [=]].
      * intros (saved & [= <-] & Hne). by destruct Hne.
  - repeat split; try discriminate.
    + intros [? [=]].
    + intros (saved & [=] & _).
    + intros _. eexists. split; [reflexivity |]. cbn. apply lookup_insert_eq.
Qed.

(** ** The provider configuration *)

Section LoadProviderConfig.

Context `{!strconv.Quoter} `{!ioutil.FileReader} `{!json.Decoder} `{!resource.Parser}.

(** C5: for a readable file that holds a map of node names to entries,
    [loadProviderConfig] returns the entry of the node (the empty entry
    when the node has none) with every empty field replaced by its
    default, ["20"], ["100Gi"] and ["20"]; it returns no error when the
    three fields parse as quantities and an error when one does not. *)
Theorem loadProviderConfig_defaults (providerConfig nodeName data : string)
    (configMap : gmap string ProviderConfig) :
  ioutil.ReadFile providerConfig = Ok data →
  json.Unmarshal data = Ok configMap →
  let entry := default ProviderConfig_zero (configMap !! nodeName) in
  let filled :=
    {| CPU := if decide (CPU entry = "") then "20" else CPU entry;
       Memory := if decide (Memory entry = "") then "100Gi" else Memory entry;
       Pods := if decide (Pods entry = "") then "20" else Pods entry |} in
  let ret := loadProviderConfig providerConfig nodeName in
  ret.1 = filled ∧
  (configMap !! nodeName = None →
     filled = {| CPU := "20"; Memory := "100Gi"; Pods := "20" |}) ∧
  ((∀ field, field ∈ [CPU filled; Memory filled; Pods filled] →
       ∃ q, resource.ParseQuantity field = Ok q) →
     ret.2 = None) ∧
  ((∃ field e, field ∈ [CPU filled; Memory filled; Pods filled] ∧
               resource.ParseQuantity field = Err e) →
     is_Some ret.2).
Proof.
  intros Hread Hdecode entry filled ret.
  assert (Hentry : ret =
    match resource.ParseQuantity (CPU filled) with
    | Err _ => (filled, Some (Errorf ("Invalid CPU value " +:+ CPU filled)))
    | Ok _ =>
        match resource.ParseQuantity (Memory filled) with
        | Err _ => (filled, Some (Errorf ("Invalid memory value " +:+ Memory filled)))
        | Ok _ =>
            match resource.ParseQuantity (Pods filled) with
            | Err _ => (filled, Some (Errorf ("Invalid pods value " +:+ Pods filled)))
            | Ok _ => (filled, None)
            end
        end
    end).
  { subst ret filled. unfold loadProviderConfig. rewrite Hread, Hdecode.
    fold entry.
    replace (match configMap !! nodeName with Some c => c | None => ProviderConfig_zero end)
      with entry by (subst entry; by destruct (configMap !! nodeName)).
    destruct entry as [cpu memory pods]. cbn [CPU Memory Pods].
    destruct (decide (cpu = "")); cbn [CPU Memory Pods];
      destruct (decide (memory = "")); cbn [CPU Memory Pods];
      destruct (decide (pods = "")); reflexivity. }
  split; [| split; [| split]].
  - rewrite Hentry. by repeat case_match.
  - intros Hnone. subst filled entry. by rewrite Hnone.
  - intros Hall. rewrite Hentry.
    destruct (Hall (CPU filled)) as [? ->]; [set_solver |].
    destruct (Hall (Memory filled)) as [? ->]; [set_solver |].
    destruct (Hall (Pods filled)) as [? ->]; [set_solver |].
    reflexivity.
  - intros (field & e & Hin & Hbad). rewrite Hentry.
    rewrite !elem_of_cons, elem_of_nil in Hin.
    destruct Hin as [-> | [-> | [-> | []]]];
      repeat case_match; simplify_eq; by eexists.
Qed.

End LoadProviderConfig.

(** ** Pod lifecycle callbacks *)

(** C8: [CreatePod], [UpdatePod], [DeletePod], [GetPod],
    [GetContainerLogs], [RunInContainer], [GetPodStatus] and [GetPods]
    return the error "not implemented" for every input, and the getters
    return [nil] with it. *)
Theorem lifecycle_callbacks_not_implemented `{!trace.Tracer}
    (p : InstanceProvider) (ctx : Context) (pod : v1.Pod)
    (namespace name podName containerName : string)
    (opts : vkapi.ContainerLogOpts) (cmd : list string) (attach : vkapi.AttachIO) :
  Error notImplemented = "not implemented" ∧
  (CreatePod p ctx pod).2 = Some notImplemented ∧
  (UpdatePod p ctx pod).2 = Some notImplemented ∧
  (DeletePod p ctx pod).2 = Some notImplemented ∧
  (GetPod p ctx namespace name).2 = (None, Some notImplemented) ∧
  (GetContainerLogs p ctx namespace podName containerName opts).2 =
    (None, Some notImplemented) ∧
  (RunInContainer p ctx namespace podName containerName cmd attach).2 =
    Some notImplemented ∧
  (GetPodStatus p ctx namespace name).2 = (None, Some notImplemented) ∧
  (GetPods p ctx).2 = (None, Some notImplemented).
Proof.
  unfold CreatePod, UpdatePod, DeletePod, GetPod, GetContainerLogs,
    RunInContainer, GetPodStatus, GetPods.
  repeat split;
    match goal with
    | |- context [trace.StartSpan ?c ?name] => by destruct (trace.StartSpan c name)
    end.
Qed.

(** ** Node status *)

(** C6: whatever the provider and the clock, [nodeConditions] reports the
    five conditions [Ready], [OutOfDisk], [MemoryPressure], [DiskPressure]
    and [NetworkUnavailable], [Ready] with status [True] and each of the
    others with status [False]. *)
Theorem nodeConditions_fixed (p : InstanceProvider) (now : nat → time.Time) :
  (λ c, (v1.Type_ c, v1.Status c)) <$> nodeConditions p now =
    [ ("Ready", v1.ConditionTrue);
      ("OutOfDisk", v1.ConditionFalse);
      ("MemoryPressure", v1.ConditionFalse);
      ("DiskPressure", v1.ConditionFalse);
      ("NetworkUnavailable", v1.ConditionFalse) ] ∧
  ∀ c, c ∈ nodeConditions p now →
    v1.Status c = if decide (v1.Type_ c = "Ready") then v1.ConditionTrue
                  else v1.ConditionFalse.
Proof.
  split; [reflexivity |].
  intros c Hc. unfold nodeConditions in Hc.
  rewrite !elem_of_cons, elem_of_nil in Hc.
  destruct Hc as [-> | [-> | [-> | [-> | [-> | []]]]]]; reflexivity.
Qed.

Lemma capacity_Returns `{!resource.Parser} (p : InstanceProvider) :
  (∀ field, field ∈ [CPU (config p); Memory (config p); Pods (config p)] →
     ∃ q, resource.ParseQuantity field = Ok q) →
  ∃ cap, capacity p = Returns cap.
Proof.
  intros Hall. unfold capacity, MustParse.
  destruct (Hall (CPU (config p))) as [? ->]; [set_solver |].
  destruct (Hall (Memory (config p))) as [? ->]; [set_solver |].
  destruct (Hall (Pods (config p))) as [? ->]; [set_solver |].
  by eexists.
Qed.

(** C10: whenever [ConfigureNode] returns, the node has [Allocatable]
    equal to [Capacity], architecture "amd64", and as operating system the
    provider's, or "Linux" when the provider has none; and it does return
    when the three configured capacities parse as quantities, which
    [loadProviderConfig] has checked. *)
Theorem ConfigureNode_status `{!trace.Tracer} `{!resource.Parser} (p : InstanceProvider)
    (ctx : Context) (now : nat → time.Time) (n : v1.Node) :
  ((∀ field, field ∈ [CPU (config p); Memory (config p); Pods (config p)] →
      ∃ q, resource.ParseQuantity field = Ok q) →
   ∃ n', (ConfigureNode p ctx now n).2 = Returns n') ∧
  ∀ n', (ConfigureNode p ctx now n).2 = Returns n' →
    v1.Allocatable (v1.Status_ n') = v1.Capacity (v1.Status_ n') ∧
    capacity p = Returns (v1.Capacity (v1.Status_ n')) ∧
    v1.Architecture (v1.NodeInfo (v1.Status_ n')) = "amd64" ∧
    v1.OperatingSystem (v1.NodeInfo (v1.Status_ n')) =
      (if decide (operatingSystem p = "") then "Linux" else operatingSystem p).
Proof.
  unfold ConfigureNode.
  destruct (trace.StartSpan ctx "ConfigureNode") as [ctx' span]. split.
  - intros Hall. destruct (capacity_Returns p Hall) as [cap ->]. by eexists.
  - destruct (capacity p) as [cap |]; [| discriminate].
    intros n' [= <-]. cbn. done.
Qed.

(** ** Logs *)

(** C4: for a pod of the registry that is not in the [Running] phase and
    a log stored in the log registry with that pod as parent, [findLog]
    with the pod's name, no log name and no limits returns that log, and
    so its content, without an error and without a call to a node
    agent. *)
Theorem findLog_registry_fallback `{!nodeclient.ItzoClient} (s : Registries)
    (pod : api.Pod) (log : api.LogFile) :
  podRegistry s !! api.Name (api.PodObjectMeta pod) = Some pod →
  api.Phase (api.PodStatus_ pod) ≠ api.PodRunning →
  logRegistry s !! refKey (api.ParentObject log) = Some log →
  api.ParentObject log = api.ToObjectReference pod →
  findLog s (api.Name (api.PodObjectMeta pod)) "" 0 0 = ([], Ok log) ∧
  ∃ found,
    (findLog s (api.Name (api.PodObjectMeta pod)) "" 0 0).2 = Ok found ∧
    api.Content found = api.Content log.
Proof.
  intros Hpod Hphase Hlog Hparent.
  assert (Hfind : findLog s (api.Name (api.PodObjectMeta pod)) "" 0 0 = ([], Ok log)).
  { unfold findLog. rewrite Hpod.
    rewrite decide_False by exact Hphase.
    unfold GetLog. rewrite <- Hparent, Hlog.
    rewrite decide_True by (by left). reflexivity. }
  split; [exact Hfind |]. exists log. by rewrite Hfind.
Qed.

(** * Scenarios *)

(** ** Event lists *)

(** 4001 events, newest first: the event created at instant 0 is dropped
    and the others come back oldest first. *)
Example filterEventList_drops_oldest :
  (λ l, created <$> api.Items l) <$>
    @filterEventList mergeSorter (Some (newestFirst 4001)) =
  Some ((λ k : nat, Z.of_nat k) <$> seq 1 4000).
Proof. vm_compute. reflexivity. Qed.

(** Within the bound the list is returned as it is, unsorted. *)
Example filterEventList_keeps_short_list :
  @filterEventList mergeSorter (Some (newestFirst 3)) = Some (newestFirst 3).
Proof. vm_compute. reflexivity. Qed.

Lemma filterEventList_keeps_newest_of_4001 :
  Z.of_nat (length (api.Items (newestFirst 4001))) > MaxEventListSize ∧
  ∃ dropped kept : list api.Event,
    @filterEventList mergeSorter (Some (newestFirst 4001)) =
      Some {| api.EventListTypeMeta := api.EventListTypeMeta (newestFirst 4001);
              api.Items := kept |} ∧
    @sort_Slice mergeSorter _ createdBefore (api.Items (newestFirst 4001)) =
      dropped ++ kept ∧
    StronglySorted (λ a b, created a ≤ created b) (dropped ++ kept) ∧
    Z.of_nat (length kept) = MaxEventListSize ∧
    dropped ++ kept ≡ₚ api.Items (newestFirst 4001) ∧
    ∀ d k, d ∈ dropped → k ∈ kept → created d ≤ created k.
Proof.
  assert (Hlen : Z.of_nat (length (api.Items (newestFirst 4001))) > MaxEventListSize)
    by (vm_compute; reflexivity).
  split; [exact Hlen |].
  exact (@filterEventList_keeps_newest mergeSorter mergeSorter_laws
           (newestFirst 4001) Hlen).
Defined.

Lemma filterEventList_idempotent_size_merge_sort :
  (∀ eventList : option api.EventList,
     @filterEventList mergeSorter (@filterEventList mergeSorter eventList) =
     @filterEventList mergeSorter eventList) ∧
  (∀ l : api.EventList,
     ∃ l' : api.EventList,
       @filterEventList mergeSorter (Some l) = Some l' ∧
       Z.of_nat (length (api.Items l')) =
         Z.min (Z.of_nat (length (api.Items l))) MaxEventListSize) ∧
  MaxEventListSize = 4000.
Proof.
  exact (@filterEventList_idempotent_size mergeSorter mergeSorter_laws).
Defined.

Lemma filterReplyObject_pod :
  @filterReplyObject mergeSorter (api.PodObject podP2) = api.PodObject podP2.
Proof.
  refine (proj1 (@filterReplyObject_other_kinds mergeSorter (api.PodObject podP2) _)).
  intros v. discriminate.
Defined.

(** ** Provider configuration *)

Lemma loadProviderConfig_example :
  @loadProviderConfig plainQuoter exampleFiles exampleDecoder wholeQuantities
      examplePath "vk" =
    ({| CPU := "8"; Memory := "100Gi"; Pods := "20" |}, None).
Proof.
  assert (Hread : @ioutil.ReadFile exampleFiles examplePath = Ok exampleData)
    by (vm_compute; reflexivity).
  assert (Hdecode : @json.Unmarshal exampleDecoder exampleData = Ok exampleConfigMap)
    by (vm_compute; reflexivity).
  pose proof (@loadProviderConfig_defaults plainQuoter exampleFiles exampleDecoder
                wholeQuantities examplePath "vk" exampleData exampleConfigMap
                Hread Hdecode) as Hthm.
  cbv zeta in Hthm. destruct Hthm as (Hconfig & _ & Hnil & _).
  rewrite (surjective_pairing (loadProviderConfig examplePath "vk")).
  rewrite Hconfig, Hnil; [vm_compute; reflexivity |].
  intros field Hin. rewrite !elem_of_cons, elem_of_nil in Hin.
  destruct Hin as [-> | [-> | [-> | []]]]; vm_compute; eexists; reflexivity.
Defined.

(** A capacity that is not a quantity is reported. *)
Example loadProviderConfig_invalid_cpu :
  let decoder := tableDecoder {[ exampleData :=
                     {[ "vk" := {| CPU := "lots"; Memory := ""; Pods := "" |} ]} ]} in
  @loadProviderConfig plainQuoter exampleFiles decoder wholeQuantities examplePath "vk" =
    ({| CPU := "lots"; Memory := "100Gi"; Pods := "20" |},
     Some (Errorf "Invalid CPU value lots")).
Proof. vm_compute. reflexivity. Qed.

(** A file that cannot be decoded: the decoder's error comes back, with
    the zero configuration. *)
Example loadProviderConfig_undecodable :
  @loadProviderConfig plainQuoter (mapFileReader {[ examplePath := "not json" ]})
      exampleDecoder wholeQuantities examplePath "vk" =
    (ProviderConfig_zero, Some (LibraryError "invalid character")).
Proof. vm_compute. reflexivity. Qed.

(** ** Node status *)

Lemma ConfigureNode_example :
  ∃ n', (@ConfigureNode recordingTracer wholeQuantities exampleProvider exampleContext
           (λ _, 0) exampleNode).2 = Returns n' ∧
        v1.Allocatable (v1.Status_ n') = v1.Capacity (v1.Status_ n') ∧
        v1.Architecture (v1.NodeInfo (v1.Status_ n')) = "amd64" ∧
        v1.OperatingSystem (v1.NodeInfo (v1.Status_ n')) = "Linux".
Proof.
  destruct (@ConfigureNode_status recordingTracer wholeQuantities exampleProvider exampleContext
              (λ _, 0) exampleNode) as [Hreturns Hstatus].
  destruct Hreturns as [n' Hn'].
  { intros field Hin. rewrite !elem_of_cons, elem_of_nil in Hin.
    destruct Hin as [-> | [-> | [-> | []]]]; vm_compute; eexists; reflexivity. }
  exists n'. split; [exact Hn' |].
  destruct (Hstatus n' Hn') as (Halloc & _ & Harch & Hos).
  split; [exact Halloc |]. split; [exact Harch | exact Hos].
Defined.

(** A provider whose capacity is not a quantity makes [ConfigureNode]
    panic. *)
Example ConfigureNode_panics :
  let p := {| nodeName := "vk"; operatingSystem := "Linux"; internalIP := "";
              daemonEndpointPort := 10250;
              config := {| CPU := "lots"; Memory := "100Gi"; Pods := "20" |};
              startTime := 0 |} in
  (@ConfigureNode recordingTracer wholeQuantities p exampleContext (λ _, 0) exampleNode).2 = Panics.
Proof. vm_compute. reflexivity. Qed.

(** ** Logs *)

Lemma findLog_p2 :
  ∃ found, @findLog mockItzoClient registriesP2 "p2" "" 0 0 = ([], Ok found) ∧
           api.Content found = "Old pod log lines".
Proof.
  destruct (@findLog_registry_fallback mockItzoClient registriesP2 podP2 logP2)
    as [Hfind _].
  - vm_compute. reflexivity.
  - discriminate.
  - vm_compute. reflexivity.
  - reflexivity.
  - exists logP2. split; [exact Hfind | reflexivity].
Defined.

(** The mock agent is not asked, and a second snapshot stored for another
    object of the same name does not change the answer. *)
Example findLog_p2_same_name :
  let other := {| api.RefKind := "Node"; api.RefUID := "uid-node"; api.RefName := "p2" |} in
  let s := {| podRegistry := {[ "p2" := podP2 ]};
              nodeRegistry := ∅;
              logRegistry :=
                {[ refKey other :=
                     {| api.LogTypeMeta := api.LogTypeMeta logP2;
                        api.LogObjectMeta := api.LogObjectMeta logP2;
                        api.ParentObject := other;
                        api.Content := "node log" |};
                   refKey (api.ToObjectReference podP2) := logP2 ]} |} in
  @findLog mockItzoClient s "p2" "" 0 0 = ([], Ok logP2).
Proof. vm_compute. reflexivity. Qed.

(** * Further properties of the provider code *)

(** ** Event lists *)

Section FilterEventListMore.

Context `{!SliceSorter} `{!SliceSorterLaws}.

(** The items [filterEventList] returns, in both cases of its test. *)
Lemma filterEventList_Items (l : api.EventList) :
  ∃ out, filterEventList (Some l) = Some out ∧
         api.EventListTypeMeta out = api.EventListTypeMeta l ∧
         api.Items out =
           if decide (Z.of_nat (length (api.Items l)) ≤ MaxEventListSize)
           then api.Items l
           else drop (length (api.Items l) - Z.to_nat MaxEventListSize)
                     (sort_Slice createdBefore (api.Items l)).
Proof.
  destruct (decide (Z.of_nat (length (api.Items l)) ≤ MaxEventListSize)) as [Hle | Hgt].
  - exists l. by rewrite filterEventList_small.
  - eexists. rewrite filterEventList_large by lia. done.
Qed.

Lemma filterEventList_Items_length (l out : api.EventList) :
  filterEventList (Some l) = Some out →
  Z.of_nat (length (api.Items out)) =
    Z.min (Z.of_nat (length (api.Items l))) MaxEventListSize.
Proof.
  destruct (filterEventList_Items l) as (out' & -> & _ & Hitems).
  intros [= <-]. rewrite Hitems. case_decide; [lia |].
  rewrite length_drop, sort_Slice_length. pose proof MaxEventListSize_nonneg. lia.
Qed.

(** X1: [filterEventList] never adds or repeats an event: the items returned
    are, with multiplicity, among the items given, and the type metadata
    of the list is kept. *)
Theorem filterEventList_submseteq (l : api.EventList) :
  ∃ out, filterEventList (Some l) = Some out ∧
         api.EventListTypeMeta out = api.EventListTypeMeta l ∧
         api.Items out ⊆+ api.Items l.
Proof.
  destruct (filterEventList_Items l) as (out & Hout & Hmeta & Hitems).
  exists out. split; [exact Hout |]. split; [exact Hmeta |].
  rewrite Hitems. case_decide; [reflexivity |].
  etrans; [apply sublist_submseteq, sublist_drop |].
  apply Permutation_submseteq, sort_Slice_Permutation.
Qed.

(** X2: The size of the list returned grows with the size of the list given
    and never exceeds it nor [MaxEventListSize]. *)
Theorem filterEventList_length_monotone (l1 l2 : api.EventList) :
  (length (api.Items l1) ≤ length (api.Items l2))%nat →
  ∃ out1 out2,
    filterEventList (Some l1) = Some out1 ∧
    filterEventList (Some l2) = Some out2 ∧
    (length (api.Items out1) ≤ length (api.Items out2))%nat ∧
    (length (api.Items out2) ≤ length (api.Items l2))%nat ∧
    Z.of_nat (length (api.Items out2)) ≤ MaxEventListSize.
Proof.
  intros Hle.
  destruct (filterEventList_Items l1) as (out1 & Hout1 & _).
  destruct (filterEventList_Items l2) as (out2 & Hout2 & _).
  exists out1, out2. split; [exact Hout1 |]. split; [exact Hout2 |].
  apply filterEventList_Items_length in Hout1, Hout2. lia.
Qed.

(** X3: An event given to [filterEventList] that is newer than some event of
    the list returned is itself in the list returned. *)
Theorem filterEventList_newer_kept (l out : api.EventList) (e k : api.Event) :
  filterEventList (Some l) = Some out →
  e ∈ api.Items l → k ∈ api.Items out → created k < created e →
  e ∈ api.Items out.
Proof.
  destruct (filterEventList_Items l) as (out' & -> & _ & Hitems).
  intros [= <-] He Hk Hnewer. rewrite Hitems in Hk |- *.
  case_decide; [exact He |].
  set (n := (length (api.Items l) - Z.to_nat MaxEventListSize)%nat) in *.
  set (sorted := sort_Slice createdBefore (api.Items l)) in *.
  assert (Hin : e ∈ take n sorted ++ drop n sorted).
  { rewrite take_drop. subst sorted. by rewrite sort_Slice_Permutation. }
  apply elem_of_app in Hin as [Hdropped | Hkept]; [| exact Hkept].
  assert (Hsorted : StronglySorted (not_after createdBefore)
                      (take n sorted ++ drop n sorted)).
  { rewrite take_drop. apply sort_Slice_Sorted, createdBefore_swo. }
  pose proof (StronglySorted_app_1_elem_of _ _ _ e k Hsorted Hdropped Hk) as Hek.
  apply not_after_createdBefore in Hek. lia.
Qed.

End FilterEventListMore.

Lemma sorted_timestamps `{!SliceSorter} `{!SliceSorterLaws} (items : list api.Event) :
  StronglySorted Z.le (created <$> sort_Slice createdBefore items).
Proof.
  apply (StronglySorted_fmap _ (not_after createdBefore)).
  - intros a b. apply not_after_createdBefore.
  - apply sort_Slice_Sorted, createdBefore_swo.
Qed.

(** X4: The creation timestamps of the list returned do not depend on how
    [sort.Slice] orders events created at the same instant: two sorts that
    keep the contract give the same sequence of timestamps. *)
Theorem filterEventList_timestamps_any_sorter
    (S1 S2 : SliceSorter) (L1 : @SliceSorterLaws S1) (L2 : @SliceSorterLaws S2)
    (eventList : option api.EventList) :
  (λ out, created <$> api.Items out) <$> @filterEventList S1 eventList =
  (λ out, created <$> api.Items out) <$> @filterEventList S2 eventList.
Proof.
  destruct eventList as [l |]; [| reflexivity].
  destruct (@filterEventList_Items S1 L1 l) as (out1 & -> & _ & Hitems1).
  destruct (@filterEventList_Items S2 L2 l) as (out2 & -> & _ & Hitems2).
  cbn. f_equal. rewrite Hitems1, Hitems2. case_decide; [reflexivity |].
  rewrite !fmap_drop. f_equal.
  apply (StronglySorted_unique_strong Z.le).
  - intros; lia.
  - apply (@sorted_timestamps S1 L1).
  - apply (@sorted_timestamps S2 L2).
  - by rewrite (@sort_Slice_Permutation S1 L1), (@sort_Slice_Permutation S2 L2).
Qed.

(** X5: A list of at most [MaxEventListSize] items, exactly that many
    included, is returned as it is, in the order given; so is [nil]. *)
Theorem filterEventList_within_bound `{!SliceSorter} (l : api.EventList) :
  Z.of_nat (length (api.Items l)) ≤ MaxEventListSize →
  filterEventList (Some l) = Some l ∧ filterEventList None = None.
Proof.
  intros Hle. split; [| reflexivity]. unfold filterEventList.
  destruct (Z.gtb_spec (Z.of_nat (length (api.Items l))) MaxEventListSize); [lia | done].
Qed.

(** X6: [filterReplyObject] applied twice gives what it gives applied once. *)
Theorem filterReplyObject_idempotent `{!SliceSorter} `{!SliceSorterLaws}
    (obj : api.MilpaObject) :
  filterReplyObject (filterReplyObject obj) = filterReplyObject obj.
Proof.
  destruct obj as [| | | | | | [l |] |]; try reflexivity.
  cbn [filterReplyObject]. f_equal.
  destruct (filterEventList_Items l) as (out & Hout & _).
  rewrite Hout. apply filterEventList_small.
  apply filterEventList_Items_length in Hout. lia.
Qed.

(** ** Trace attributes *)

Lemma addAttributes_loop_foldl (attrs : list string) (span : trace.Span) (ctx : Context) :
  addAttributes_loop ctx span attrs =
    foldl (λ c kv, trace.WithField span c kv.1 kv.2) ctx (attributePairs attrs).
Proof.
  revert attrs ctx. fix IH 1. intros [| k [| v rest]] ctx; [done | done |].
  cbn. apply IH.
Qed.

Lemma attributePairs_lookup (attrs : list string) (i : nat) (k v : string) :
  attrs !! (2 * i)%nat = Some k → attrs !! (2 * i + 1)%nat = Some v →
  attributePairs attrs !! i = Some (k, v).
Proof.
  revert attrs i. fix IH 1. intros [| k' [| v' rest]] i; [done | |].
  - destruct i as [| i]; [done |].
    replace (2 * S i)%nat with (S (S (2 * i))) by lia. done.
  - destruct i as [| i]; cbn.
    + by intros [= ->] [= ->].
    + replace (i + S (i + 0))%nat with (S (2 * i)) by lia.
      replace (i + S (i + 0) + 1)%nat with (S (2 * i + 1)) by lia.
      cbn. apply IH.
Qed.

Lemma attributePairs_length (attrs : list string) :
  length (attributePairs attrs) = (length attrs / 2)%nat.
Proof.
  revert attrs. fix IH 1. intros [| k [| v rest]]; [done | done |].
  cbn [attributePairs length]. rewrite IH.
  change (S (S (length rest))) with (1 * 2 + length rest)%nat.
  rewrite Nat.add_comm, Nat.div_add by lia. lia.
Qed.

Lemma foldl_WithField_appends (span : trace.Span) (pairs : list (string * string))
    (ctx : Context) :
  appendsField span →
  let ctx' := foldl (λ c kv, trace.WithField span c kv.1 kv.2) ctx pairs in
  ctxSpan ctx' = ctxSpan ctx ∧ ctxFields ctx' = ctxFields ctx ++ pairs.
Proof.
  intros Happends. revert ctx. induction pairs as [| [k v] pairs IH]; intros ctx; cbn.
  - by rewrite app_nil_r.
  - destruct (IH (trace.WithField span ctx k v)) as [-> ->].
    destruct (Happends ctx k v) as [-> ->]. by rewrite <- app_assoc.
Qed.

Lemma foldl_WithField_nop (span : trace.Span) (pairs : list (string * string))
    (ctx : Context) :
  (∀ c k v, trace.WithField span c k v = c) →
  foldl (λ c kv, trace.WithField span c kv.1 kv.2) ctx pairs = ctx.
Proof.
  intros Hnop. induction pairs as [| [k v] pairs IH]; [done |].
  cbn. by rewrite Hnop.
Qed.

(** X7: [addAttributes] with an odd number of strings returns the context it
    was given.  With an even number it hands the keys and values to
    [span.WithField], pair by pair in order and each on the context the
    call before returned: [len(attrs)/2] calls, the call number [i] with
    [(attrs[2i], attrs[2i+1])].  What comes back is therefore up to the
    span: the context as it was for a span whose [WithField] returns its
    context, and for a span whose [WithField] adds the field for the
    logger the span and the fields of the context followed, in order, by
    one field for each pair. *)
Theorem addAttributes_fields (ctx : Context) (span : trace.Span) (attrs : list string) :
  (Z.of_nat (length attrs) mod 2 = 1 → addAttributes ctx span attrs = ctx) ∧
  (Z.of_nat (length attrs) mod 2 = 0 →
     addAttributes ctx span attrs =
       foldl (λ c kv, trace.WithField span c kv.1 kv.2) ctx (attributePairs attrs) ∧
     length (attributePairs attrs) = (length attrs / 2)%nat ∧
     (∀ (i : nat) (k v : string),
        attrs !! (2 * i)%nat = Some k → attrs !! (2 * i + 1)%nat = Some v →
        attributePairs attrs !! i = Some (k, v)) ∧
     ((∀ c k v, trace.WithField span c k v = c) →
        addAttributes ctx span attrs = ctx) ∧
     (appendsField span →
        ctxSpan (addAttributes ctx span attrs) = ctxSpan ctx ∧
        ctxFields ctx `prefix_of` ctxFields (addAttributes ctx span attrs) ∧
        length (ctxFields (addAttributes ctx span attrs)) =
          (length (ctxFields ctx) + length attrs / 2)%nat ∧
        ∀ (i : nat) (k v : string),
          attrs !! (2 * i)%nat = Some k → attrs !! (2 * i + 1)%nat = Some v →
          ctxFields (addAttributes ctx span attrs) !! (length (ctxFields ctx) + i)%nat =
            Some (k, v))).
Proof.
  unfold addAttributes. split; intros Hparity.
  - by rewrite Hparity.
  - rewrite Hparity. cbn. rewrite addAttributes_loop_foldl.
    split; [reflexivity |]. split; [apply attributePairs_length |].
    split; [apply attributePairs_lookup |]. split.
    + apply foldl_WithField_nop.
    + intros Happends.
      destruct (foldl_WithField_appends span (attributePairs attrs) ctx Happends)
        as [Hspan Hfields].
      rewrite Hfields, length_app, attributePairs_length.
      split; [exact Hspan |]. split; [by eexists |]. split; [reflexivity |].
      intros i k v Hk Hv. rewrite lookup_app_r by lia.
      replace (length (ctxFields ctx) + i - length (ctxFields ctx))%nat with i by lia.
      by apply attributePairs_lookup.
Qed.

(** ** Provider configuration, continued *)

Section LoadProviderConfigMore.

Context `{!strconv.Quoter} `{!ioutil.FileReader} `{!json.Decoder} `{!resource.Parser}.

(** The configuration [loadProviderConfig] works on once the file is
    decoded: the node's entry with its empty fields set to the defaults. *)
Lemma loadProviderConfig_decoded (providerConfig nodeName data : string)
    (configMap : gmap string ProviderConfig) :
  ioutil.ReadFile providerConfig = Ok data →
  json.Unmarshal data = Ok configMap →
  ∃ filled,
    CPU filled ≠ "" ∧ Memory filled ≠ "" ∧ Pods filled ≠ "" ∧
    loadProviderConfig providerConfig nodeName =
      match resource.ParseQuantity (CPU filled) with
      | Err _ => (filled, Some (Errorf ("Invalid CPU value " +:+ CPU filled)))
      | Ok _ =>
          match resource.ParseQuantity (Memory filled) with
          | Err _ => (filled, Some (Errorf ("Invalid memory value " +:+ Memory filled)))
          | Ok _ =>
              match resource.ParseQuantity (Pods filled) with
              | Err _ => (filled, Some (Errorf ("Invalid pods value " +:+ Pods filled)))
              | Ok _ => (filled, None)
              end
          end
      end.
Proof.
  intros Hread Hdecode. unfold loadProviderConfig. rewrite Hread, Hdecode.
  destruct (match configMap !! nodeName with
            | Some c => c
            | None => ProviderConfig_zero
            end) as [cpu memory pods].
  cbn [CPU Memory Pods].
  destruct (decide (cpu = "")); cbn [CPU Memory Pods];
    destruct (decide (memory = "")); cbn [CPU Memory Pods];
    destruct (decide (pods = ""));
    eexists {| CPU := _; Memory := _; Pods := _ |}; cbn [CPU Memory Pods];
    (split; [| split; [| split; [| reflexivity]]]); done.
Qed.

Lemma loadProviderConfig_ok_inv (providerConfig nodeName : string)
    (config : ProviderConfig) :
  loadProviderConfig providerConfig nodeName = (config, None) →
  ∃ data configMap,
    ioutil.ReadFile providerConfig = Ok data ∧
    json.Unmarshal data = Ok configMap ∧
    ∀ field, field ∈ [CPU config; Memory config; Pods config] →
      ∃ q, resource.ParseQuantity field = Ok q.
Proof.
  intros Hret.
  destruct (ioutil.ReadFile providerConfig) as [data | e] eqn:Hread;
    [| unfold loadProviderConfig in Hret; by rewrite Hread in Hret].
  destruct (json.Unmarshal data) as [configMap | e] eqn:Hdecode;
    [| unfold loadProviderConfig in Hret; by rewrite Hread, Hdecode in Hret].
  exists data, configMap. split; [reflexivity |]. split; [exact Hdecode |].
  destruct (loadProviderConfig_decoded providerConfig nodeName data configMap
              Hread Hdecode) as (filled & _ & _ & _ & Heq).
  rewrite Heq in Hret.
  destruct (resource.ParseQuantity (CPU filled)) eqn:Hq1; [| discriminate].
  destruct (resource.ParseQuantity (Memory filled)) eqn:Hq2; [| discriminate].
  destruct (resource.ParseQuantity (Pods filled)) eqn:Hq3; [| discriminate].
  injection Hret as <-.
  intros field Hin. rewrite !elem_of_cons, elem_of_nil in Hin.
  destruct Hin as [-> | [-> | [-> | []]]]; by eexists.
Qed.

(** X8: A configuration returned without an error is complete and valid: none
    of its three capacities is empty and each parses as a quantity. *)
Theorem loadProviderConfig_valid (providerConfig nodeName : string)
    (config : ProviderConfig) :
  loadProviderConfig providerConfig nodeName = (config, None) →
  CPU config ≠ "" ∧ Memory config ≠ "" ∧ Pods config ≠ "" ∧
  ∀ field, field ∈ [CPU config; Memory config; Pods config] →
    ∃ q, resource.ParseQuantity field = Ok q.
Proof.
  intros Hret.
  destruct (loadProviderConfig_ok_inv _ _ _ Hret)
    as (data & configMap & Hread & Hdecode & Hparse).
  destruct (loadProviderConfig_decoded providerConfig nodeName data configMap
              Hread Hdecode) as (filled & Hcpu & Hmemory & Hpods & Heq).
  rewrite Heq in Hret.
  assert (Hfilled : filled = config).
  { repeat case_match; simplify_eq; reflexivity. }
  subst filled. do 3 (split; [assumption |]). exact Hparse.
Qed.

(** X9: A file that cannot be read or decoded gives the zero configuration
    and an error: for a failed read a new error whose message holds the
    quoted path and the message of the read error, for a failed decoding
    the decoder's error itself.  The quantity parser is not consulted. *)
Theorem loadProviderConfig_file_errors (providerConfig nodeName : string) :
  (∀ e, ioutil.ReadFile providerConfig = Err e →
     ∃ msg, loadProviderConfig providerConfig nodeName =
              (ProviderConfig_zero, Some (Errorf msg)) ∧
            contains msg (strconv.Quote providerConfig) ∧
            contains msg (Error e)) ∧
  (∀ data e, ioutil.ReadFile providerConfig = Ok data →
     json.Unmarshal data = Err e →
     loadProviderConfig providerConfig nodeName = (ProviderConfig_zero, Some e)).
Proof.
  unfold loadProviderConfig. split.
  - intros e ->. eexists. split; [reflexivity |]. split.
    + apply contains_middle.
    + exists ("reading config " +:+ strconv.Quote providerConfig +:+ ": "), "".
      rewrite !string_app_assoc.
      replace (Error e +:+ "") with (Error e); [reflexivity |].
      induction (Error e) as [| c s IH]; [reflexivity |].
      change (String c s = String c (s +:+ "")). by rewrite <- IH.
  - by intros data e -> ->.
Qed.

(** X10: When the file is decoded, the error returned is about the first of
    cpu, memory and pods (in that order) whose value, after the defaults
    are filled in, is not a quantity, and its message ends with that
    value; the configuration returned with it has the defaults filled
    in. *)
Theorem loadProviderConfig_first_invalid (providerConfig nodeName data : string)
    (configMap : gmap string ProviderConfig) (e : error) (config : ProviderConfig) :
  ioutil.ReadFile providerConfig = Ok data →
  json.Unmarshal data = Ok configMap →
  loadProviderConfig providerConfig nodeName = (config, Some e) →
  CPU config ≠ "" ∧ Memory config ≠ "" ∧ Pods config ≠ "" ∧
  ((e = Errorf ("Invalid CPU value " +:+ CPU config) ∧
    ∃ e', resource.ParseQuantity (CPU config) = Err e') ∨
   (e = Errorf ("Invalid memory value " +:+ Memory config) ∧
    (∃ q, resource.ParseQuantity (CPU config) = Ok q) ∧
    ∃ e', resource.ParseQuantity (Memory config) = Err e') ∨
   (e = Errorf ("Invalid pods value " +:+ Pods config) ∧
    (∃ q, resource.ParseQuantity (CPU config) = Ok q) ∧
    (∃ q, resource.ParseQuantity (Memory config) = Ok q) ∧
    ∃ e', resource.ParseQuantity (Pods config) = Err e')).
Proof.
  intros Hread Hdecode Hret.
  destruct (loadProviderConfig_decoded providerConfig nodeName data configMap
              Hread Hdecode) as (filled & Hcpu & Hmemory & Hpods & Heq).
  rewrite Heq in Hret.
  destruct (resource.ParseQuantity (CPU filled)) eqn:Hq1.
  2: { injection Hret as <- <-. do 3 (split; [done |]). left. split; [done |].
       by eexists. }
  destruct (resource.ParseQuantity (Memory filled)) eqn:Hq2.
  2: { injection Hret as <- <-. do 3 (split; [done |]). right. left.
       split; [done |]. split; by eexists. }
  destruct (resource.ParseQuantity (Pods filled)) eqn:Hq3; [discriminate |].
  injection Hret as <- <-. do 3 (split; [done |]). right. right.
  split; [done |]. repeat split; by eexists.
Qed.

End LoadProviderConfigMore.

(** ** Node status, continued *)

Lemma capacity_inv `{!resource.Parser} (p : InstanceProvider) (cap : v1.ResourceList) :
  capacity p = Returns cap →
  ∃ cpu memory pods,
    resource.ParseQuantity (CPU (config p)) = Ok cpu ∧
    resource.ParseQuantity (Memory (config p)) = Ok memory ∧
    resource.ParseQuantity (Pods (config p)) = Ok pods ∧
    cap = <["cpu" := cpu]> (<["memory" := memory]> (<["pods" := pods]> ∅)).
Proof.
  unfold capacity, MustParse.
  destruct (resource.ParseQuantity (CPU (config p))) as [cpu |]; [| discriminate].
  destruct (resource.ParseQuantity (Memory (config p))) as [memory |]; [| discriminate].
  destruct (resource.ParseQuantity (Pods (config p))) as [pods |]; [| discriminate].
  intros [= <-]. by exists cpu, memory, pods.
Qed.

(** X11: [capacity] panics exactly when one of the three configured capacities
    is not a quantity.  When it returns, the resource list has the three
    resources cpu, memory and pods and no other, each with the quantity
    its configured string parses to. *)
Theorem capacity_resources `{!resource.Parser} (p : InstanceProvider) :
  (capacity p = Panics ↔
     ∃ field e, field ∈ [CPU (config p); Memory (config p); Pods (config p)] ∧
                resource.ParseQuantity field = Err e) ∧
  ∀ cap, capacity p = Returns cap →
    ∃ cpu memory pods,
      resource.ParseQuantity (CPU (config p)) = Ok cpu ∧
      resource.ParseQuantity (Memory (config p)) = Ok memory ∧
      resource.ParseQuantity (Pods (config p)) = Ok pods ∧
      cap !! "cpu" = Some cpu ∧
      cap !! "memory" = Some memory ∧
      cap !! "pods" = Some pods ∧
      dom cap = ({["cpu"; "memory"; "pods"]} : gset string).
Proof.
  split.
  - unfold capacity, MustParse. split.
    + intros Hpanics.
      destruct (resource.ParseQuantity (CPU (config p))) eqn:H1;
        [| eexists _, _; split; [| exact H1]; set_solver].
      destruct (resource.ParseQuantity (Memory (config p))) eqn:H2;
        [| eexists _, _; split; [| exact H2]; set_solver].
      destruct (resource.ParseQuantity (Pods (config p))) eqn:H3;
        [discriminate | eexists _, _; split; [| exact H3]; set_solver].
    + intros (field & e & Hin & Hbad).
      rewrite !elem_of_cons, elem_of_nil in Hin.
      destruct Hin as [-> | [-> | [-> | []]]]; rewrite ?Hbad; [done | |];
        repeat case_match; simplify_eq; done.
  - intros cap Hcap.
    destruct (capacity_inv p cap Hcap) as (cpu & memory & pods & H1 & H2 & H3 & ->).
    exists cpu, memory, pods. do 3 (split; [done |]).
    split; [by simplify_map_eq |]. split; [by simplify_map_eq |].
    split; [by simplify_map_eq |].
    rewrite !dom_insert_L, dom_empty_L. set_solver.
Qed.

(** X12: [ConfigureNode] writes seven fields of the status and nothing else.
    The node returned keeps the type and object metadata and the
    specification of the node given, the phase, images, volumes and
    configuration of its status and the eight other fields of its system
    information; it gets the conditions of [nodeConditions], the single
    address [InternalIP] of the provider and its kubelet port.  What the
    seven fields held before plays no part: the same node is returned
    whatever they held, so also for the node returned itself. *)
Theorem ConfigureNode_replaces_status `{!trace.Tracer} `{!resource.Parser}
    (p : InstanceProvider) (ctx : Context) (now : nat → time.Time) (n n' : v1.Node) :
  (ConfigureNode p ctx now n).2 = Returns n' →
  let st := v1.Status_ n in
  let st' := v1.Status_ n' in
  (v1.NodeKind n' = v1.NodeKind n ∧
   v1.NodeAPIVersion n' = v1.NodeAPIVersion n ∧
   v1.NodeName n' = v1.NodeName n ∧
   v1.NodeUID n' = v1.NodeUID n ∧
   v1.NodeLabels n' = v1.NodeLabels n ∧
   v1.NodeAnnotations n' = v1.NodeAnnotations n ∧
   v1.Spec n' = v1.Spec n) ∧
  (v1.NodePhase st' = v1.NodePhase st ∧
   v1.Images st' = v1.Images st ∧
   v1.VolumesInUse st' = v1.VolumesInUse st ∧
   v1.VolumesAttached st' = v1.VolumesAttached st ∧
   v1.Config st' = v1.Config st) ∧
  (v1.MachineID (v1.NodeInfo st') = v1.MachineID (v1.NodeInfo st) ∧
   v1.SystemUUID (v1.NodeInfo st') = v1.SystemUUID (v1.NodeInfo st) ∧
   v1.BootID (v1.NodeInfo st') = v1.BootID (v1.NodeInfo st) ∧
   v1.KernelVersion (v1.NodeInfo st') = v1.KernelVersion (v1.NodeInfo st) ∧
   v1.OSImage (v1.NodeInfo st') = v1.OSImage (v1.NodeInfo st) ∧
   v1.ContainerRuntimeVersion (v1.NodeInfo st') =
     v1.ContainerRuntimeVersion (v1.NodeInfo st) ∧
   v1.KubeletVersion (v1.NodeInfo st') = v1.KubeletVersion (v1.NodeInfo st) ∧
   v1.KubeProxyVersion (v1.NodeInfo st') = v1.KubeProxyVersion (v1.NodeInfo st)) ∧
  (v1.Conditions st' = nodeConditions p now ∧
   v1.Addresses st' =
     [ {| v1.AddressType := "InternalIP"; v1.Address := internalIP p |} ] ∧
   v1.DaemonEndpoints st' =
     {| v1.KubeletEndpoint := {| v1.Port := daemonEndpointPort p |} |}) ∧
  (∀ a : v1.NodeStatus, (ConfigureNode p ctx now (withAssigned a n)).2 = Returns n') ∧
  (ConfigureNode p ctx now n').2 = Returns n'.
Proof.
  unfold ConfigureNode.
  destruct (trace.StartSpan ctx "ConfigureNode") as [ctx' span].
  destruct (capacity p) as [cap |]; [| discriminate].
  intros [= <-]. cbn. repeat split.
Qed.

(** X13: A provider that carries a configuration [loadProviderConfig] returned
    without an error can always configure a node: [capacity] and
    [ConfigureNode] return, they do not panic. *)
Theorem loaded_config_configures_node `{!trace.Tracer}
    `{!strconv.Quoter} `{!ioutil.FileReader} `{!json.Decoder} `{!resource.Parser}
    (providerConfig node : string) (p : InstanceProvider)
    (ctx : Context) (now : nat → time.Time) (n : v1.Node) :
  loadProviderConfig providerConfig node = (config p, None) →
  (∃ cap, capacity p = Returns cap) ∧
  ∃ n', (ConfigureNode p ctx now n).2 = Returns n'.
Proof.
  intros Hload.
  destruct (loadProviderConfig_ok_inv _ _ _ Hload) as (_ & _ & _ & _ & Hparse).
  destruct (capacity_Returns p Hparse) as [cap Hcap].
  split; [by exists cap |].
  unfold ConfigureNode.
  destruct (trace.StartSpan ctx "ConfigureNode") as [ctx' span].
  rewrite Hcap. by eexists.
Qed.

(** ** The cluster region, continued *)

Lemma memEtcd_laws : SimpleEtcdLaws etcd.Mem.
Proof.
  split. intros st st' key value ok kv.
  cbn [etcd.Get etcd.AtomicPut etcd.memEtcd]. unfold etcd.memAtomicPut, etcd.memGet.
  destruct (etcd.outage st) eqn:Hup; [discriminate |].
  destruct (etcd.data st !! key); [discriminate |].
  intros [= <- <- <-]. cbn. rewrite lookup_insert_eq. by eexists.
Qed.

(** X14: Once [ensureRegionUnchanged] has succeeded for a region, the region
    is fixed: on the store it leaves, a call with the same region succeeds
    and a call with any other region fails with the error that names
    both, and neither changes the store. *)
Theorem ensureRegionUnchanged_region_fixed {St : Type} `{!etcd.SimpleEtcd St}
    `{!SimpleEtcdLaws St} (etcdClient etcdClient' : St) (region : string) :
  ensureRegionUnchanged etcdClient region = (etcdClient', None) →
  ensureRegionUnchanged etcdClient' region = (etcdClient', None) ∧
  ∀ other, other ≠ region →
    ∃ msg, ensureRegionUnchanged etcdClient' other = (etcdClient', Some (Errorf msg)) ∧
           contains msg region ∧ contains msg other.
Proof.
  intros Hfirst.
  assert (Hstored : ∃ stored, etcd.Get etcdClient' etcdClusterRegionPath = Ok stored ∧
                              store.Value stored = region).
  { unfold ensureRegionUnchanged in Hfirst.
    destruct (etcd.Get etcdClient etcdClusterRegionPath) as [kv | e] eqn:Hread.
    - destruct (decide (region ≠ store.Value kv)) as [Hne | Heq]; [discriminate |].
      apply dec_stable in Heq. injection Hfirst as <-. by exists kv.
    - destruct (decide (e ≠ ErrKeyNotFound)); [discriminate |].
      destruct (etcd.AtomicPut etcdClient etcdClusterRegionPath region None None)
        as [c' [[ok kv] err]] eqn:Hwrite.
      injection Hfirst as -> ->. by eapply AtomicPut_Get. }
  destruct Hstored as (stored & Hread & Hvalue).
  unfold ensureRegionUnchanged. rewrite Hread, Hvalue. split.
  - by rewrite decide_False by (intros Hne; by apply Hne).
  - intros other Hother. rewrite decide_True by done.
    eexists. split; [reflexivity |]. apply region_message_contains.
Qed.

(** ** The helpers of [kipctl] *)

Lemma string_length_app (s t : string) :
  String.length (s +:+ t) = (String.length s + String.length t)%nat.
Proof.
  induction s as [| c s IH]; [reflexivity |].
  change (S (String.length (s +:+ t)) = S (String.length s + String.length t)).
  by rewrite IH.
Qed.

Lemma substring_all (t : string) : String.substring 0 (String.length t) t = t.
Proof. induction t as [| c t IH]; [reflexivity |]. cbn. by rewrite IH. Qed.

Lemma substring_app_r (s t : string) :
  String.substring (String.length s) (String.length t) (s +:+ t) = t.
Proof. induction s as [| c s IH]; [apply substring_all | exact IH]. Qed.

Lemma substring_split (s : string) (n : nat) :
  (n ≤ String.length s)%nat →
  s = String.substring 0 n s +:+ String.substring n (String.length s - n) s.
Proof.
  revert n. induction s as [| c s IH]; intros n Hn.
  - destruct n; [reflexivity | cbn in Hn; lia].
  - destruct n as [| n].
    + cbn. by rewrite substring_all.
    + cbn in Hn. cbn [String.substring String.length].
      change (String c s = String c (String.substring 0 n s +:+
                String.substring n (String.length s - n) s)).
      rewrite <- IH by lia. reflexivity.
Qed.

(** [strings.HasSuffix] holds exactly of the strings that end with the
    suffix. *)
Lemma HasSuffix_spec (s suffix : string) :
  strings.HasSuffix s suffix = true ↔ ∃ pre, s = pre +:+ suffix.
Proof.
  unfold strings.HasSuffix. rewrite andb_true_iff, Nat.leb_le, String.eqb_eq. split.
  - intros [Hlen Hsub].
    exists (String.substring 0 (String.length s - String.length suffix) s).
    pose proof (substring_split s (String.length s - String.length suffix)
                  ltac:(lia)) as Hsplit.
    replace (String.length s - (String.length s - String.length suffix))%nat
      with (String.length suffix) in Hsplit by lia.
    by rewrite Hsub in Hsplit.
  - intros [pre ->]. rewrite string_length_app. split; [lia |].
    replace (String.length pre + String.length suffix - String.length suffix)%nat
      with (String.length pre) by lia.
    apply substring_app_r.
Qed.

Section Kipctl.

Context `{!fmt.Formatter}.

Lemma fatal_stderr (format : string) (v : list fmt.Value) :
  (∃ pre, kipctl.stderr (kipctl.fatal format v) = pre +:+ kipctl.newline) ∧
  kipctl.exitCode (kipctl.fatal format v) = 1.
Proof.
  split; [| reflexivity]. unfold kipctl.fatal. cbn.
  destruct (strings.HasSuffix (fmt.Sprintf format v) kipctl.newline) eqn:Hsuffix; cbn.
  - by apply HasSuffix_spec.
  - by eexists.
Qed.

(** X15: [fatal] exits with status 1 after writing the formatted message,
    which always ends with a line feed: the message as formatted when it
    ends with one, with one line feed added when it does not. *)
Theorem fatal_newline_terminated (format : string) (v : list fmt.Value) :
  let msg := fmt.Sprintf format v in
  let exit := kipctl.fatal format v in
  kipctl.exitCode exit = 1 ∧
  (∃ pre, kipctl.stderr exit = pre +:+ kipctl.newline) ∧
  ((∃ pre, msg = pre +:+ kipctl.newline) → kipctl.stderr exit = msg) ∧
  ((¬ ∃ pre, msg = pre +:+ kipctl.newline) →
     kipctl.stderr exit = msg +:+ kipctl.newline).
Proof.
  cbv zeta. split; [reflexivity |]. split; [apply fatal_stderr |].
  unfold kipctl.fatal. cbn. split.
  - intros Hends. apply HasSuffix_spec in Hends. by rewrite Hends.
  - intros Hnot.
    destruct (strings.HasSuffix (fmt.Sprintf format v) kipctl.newline) eqn:Hsuffix;
      [| reflexivity].
    by apply HasSuffix_spec in Hsuffix.
Qed.

(** X16: [dieIfReplyError] returns exactly for the statuses from 200 to 399;
    for any other status it exits with status 1 and a message that ends
    with a line feed. *)
Theorem dieIfReplyError_status_range (cmd : string) (reply : clientapi.APIReply) :
  (kipctl.dieIfReplyError cmd reply = None ↔
     200 ≤ clientapi.Status reply < 400) ∧
  ∀ exit, kipctl.dieIfReplyError cmd reply = Some exit →
    kipctl.exitCode exit = 1 ∧
    (∃ pre, kipctl.stderr exit = pre +:+ kipctl.newline) ∧
    (clientapi.Status reply < 200 ∨ 400 ≤ clientapi.Status reply).
Proof.
  unfold kipctl.dieIfReplyError.
  destruct (Z.ltb_spec (clientapi.Status reply) 200);
    destruct (Z.geb_spec (clientapi.Status reply) 400); cbn;
    (split; [split; [try discriminate; lia | try lia; done] |]);
    intros exit [= <-]; (split; [reflexivity |]);
    (split; [apply fatal_stderr | lia]).
Qed.

(** X17: [dieIfError] returns exactly when the error is nil; otherwise it exits
    with status 1 and a message that ends with a line feed, and that
    message is what [Sprintf] makes of the text ["<formatted>: <error>"]
    taken as a format without arguments. *)
Theorem dieIfError_exits (err : option error) (format : string)
    (args : list fmt.Value) :
  (kipctl.dieIfError err format args = None ↔ err = None) ∧
  ∀ e, err = Some e →
    ∃ exit, kipctl.dieIfError err format args = Some exit ∧
      kipctl.exitCode exit = 1 ∧
      (∃ pre, kipctl.stderr exit = pre +:+ kipctl.newline) ∧
      exit = kipctl.fatal (fmt.Sprintf format args +:+ ": " +:+ Error e) [].
Proof.
  split.
  - destruct err; cbn; split; done.
  - intros e ->. eexists. split; [reflexivity |].
    split; [reflexivity |]. split; [apply fatal_stderr | reflexivity].
Qed.

End Kipctl.

(** ** The generated client *)

Section KiyotClient.

Context `{!rest.Types} `{!rest.Client} `{!v1beta2.Scheme}.

(** X18: [setConfigDefaults] never fails and is idempotent.  It points the
    configuration at the API path "/apis", the group version of the
    scheme and its serializer, keeps the host and the token, keeps a user
    agent that is set and puts the default one where there is none. *)
Theorem setConfigDefaults_idempotent (config : rest.Config) :
  let config' := (v1beta2.setConfigDefaults config).1 in
  (v1beta2.setConfigDefaults config).2 = None ∧
  v1beta2.setConfigDefaults config' = (config', None) ∧
  rest.APIPath config' = "/apis" ∧
  rest.GroupVersion config' = Some v1beta2.SchemeGroupVersion ∧
  rest.Serializer config' = Some v1beta2.CodecsWithoutConversion ∧
  rest.Host config' = rest.Host config ∧
  rest.BearerToken config' = rest.BearerToken config ∧
  (rest.UserAgent config ≠ "" → rest.UserAgent config' = rest.UserAgent config) ∧
  (rest.UserAgent config = "" →
     rest.UserAgent config' = rest.DefaultKubernetesUserAgent).
Proof.
  cbv zeta. unfold v1beta2.setConfigDefaults. cbn.
  split; [reflexivity |]. split.
  - f_equal. f_equal. by repeat case_decide.
  - repeat split; intros; by case_decide.
Qed.

(** X19: [NewForConfig] returns a client exactly when [rest.RESTClientFor]
    accepts the configuration with the defaults set, the client then
    holds what [rest.RESTClientFor] returned, and an error of
    [rest.RESTClientFor] is returned as it is.  [NewForConfigOrDie]
    returns the same client and panics exactly when [NewForConfig]
    returns an error. *)
Theorem NewForConfig_client (c : rest.Config) :
  let config := (v1beta2.setConfigDefaults c).1 in
  (∀ client, rest.RESTClientFor config = Ok client →
     v1beta2.NewForConfig c = Ok (v1beta2.New (Some client)) ∧
     v1beta2.NewForConfigOrDie c = Returns (v1beta2.New (Some client)) ∧
     v1beta2.RESTClient (Some (v1beta2.New (Some client))) = Some client) ∧
  (∀ e, rest.RESTClientFor config = Err e →
     v1beta2.NewForConfig c = Err e ∧ v1beta2.NewForConfigOrDie c = Panics).
Proof.
  cbv zeta. unfold v1beta2.NewForConfigOrDie, v1beta2.NewForConfig. cbn.
  split.
  - by intros client ->.
  - by intros e ->.
Qed.

End KiyotClient.

(** ** Start of the provider *)

Section StartupProperties.

Context {St : Type} `{!etcd.SimpleEtcd St} `{!Environment St}.
Context `{!strconv.Quoter} `{!ioutil.FileReader} `{!json.Decoder} `{!resource.Parser}.
Context `{!trace.Tracer}.

(** One step of [NewInstanceProvider]: the result of the next call is
    named and its cases are taken apart. *)
Ltac startup_step :=
  first
    [ progress cbn [mbind startup_bind orExit errOrExit]
    | match goal with
      | |- context [orExit ?r] => destruct r eqn:?
      | |- context [errOrExit ?r] => destruct r eqn:?
      | |- context [match ?r with Ok _ => _ | Err _ => _ end] => destruct r eqn:?
      | |- context [match ?r with Some _ => _ | None => _ end] => destruct r eqn:?
      | |- context [let '(_, _) := ?r in _] => destruct r eqn:?
      | |- context [if decide (0 < length ?l)%nat then _ else _] =>
          destruct (decide (0 < length l)%nat)
      end ].

(** What has happened when [NewInstanceProvider] returns a provider. *)
Lemma NewInstanceProvider_Started_inv
    (node os ip path : string) (port : Z) (srv : Server St) :
  NewInstanceProvider node os ip path port = Started srv →
  ∃ providerConfig scf c0 c1 c2 id cloud,
    loadProviderConfig path node = (providerConfig, None) ∧
    ParseConfig path = Ok scf ∧
    validateServerConfigFile scf = [] ∧
    setupEtcd (EtcdInternalConfigFile scf) (EtcdInternalDataDir scf) = Ok c0 ∧
    getControllerID c0 = (c1, Ok id) ∧
    (∃ factory, certsNew c1 = (c2, Ok factory)) ∧
    let controllerID :=
      if decide (TestingControllerID scf ≠ "") then TestingControllerID scf else id in
    let nametag :=
      if decide (NodesNametag scf = "") then controllerID else NodesNametag scf in
    ConfigureCloud scf controllerID nametag = Ok cloud ∧
    ensureRegionUnchanged c2 (Region (GetAttributes cloud)) = (etcdClient srv, None) ∧
    ValidateInstanceType (NodesDefaultInstanceType scf) = [] ∧
    validateBootImageTags (NodesBootImageTags scf) cloud = None ∧
    srv =
      {| provider :=
           {| nodeName := node; operatingSystem := os; internalIP := ip;
              daemonEndpointPort := port; config := providerConfig;
              startTime := timeNow |};
         KV := {[ "Pod"; "Node"; "Event"; "Log"; "Metric" ]};
         cloudClient := cloud;
         etcdClient := etcdClient srv;
         Controllers :=
           (if isAzureClient cloud
            then {[ "ImageController" ]} ∪
                 {[ "PodController"; "NodeController"; "GarbageController";
                    "MetricsController" ]}
            else {[ "PodController"; "NodeController"; "GarbageController";
                    "MetricsController" ]});
         controllerID := controllerID;
         nametag := nametag;
         usePublicIPs := negb (ControllerInsideVPC cloud);
         nodeController := nodeControllerConfig (NodesItzoVersion scf) (NodesItzoURL scf);
         garbageController := garbageControllerConfig |}.
Proof.
  unfold NewInstanceProvider.
  destruct (loadProviderConfig path node) as [providerConfig [e |]] eqn:Hload;
    [discriminate |].
  repeat startup_step; try discriminate.
  intros [= <-]. cbn [etcdClient].
  eexists _, _, _, _, _, _, _.
  repeat match goal with |- _ ∧ _ => split end; try done.
  - destruct (validateServerConfigFile _); [done | cbn in *; lia].
  - by eexists.
  - destruct (ValidateInstanceType _); [done | cbn in *; lia].
Qed.

(** X21: [NewInstanceProvider] returns an error in two cases only: the error of
    [loadProviderConfig], before anything else is done, and "Invalid
    Server Config" when the server configuration that was parsed does not
    validate.  Every other failure ends the process, always with exit
    status 1; a server configuration that cannot be parsed is one of
    them. *)
Theorem NewInstanceProvider_failures (node os ip path : string) (port : Z) :
  let ret := NewInstanceProvider node os ip path port in
  (∀ e, ret = ReturnsError e ↔
     (∃ cfg, loadProviderConfig path node = (cfg, Some e)) ∨
     (∃ cfg scf, loadProviderConfig path node = (cfg, None) ∧
                 ParseConfig path = Ok scf ∧
                 validateServerConfigFile scf ≠ [] ∧
                 e = Errorf ("Invalid Server Config: " +:+
                             ToAggregate (validateServerConfigFile scf)))) ∧
  (∀ code, ret = ExitsProcess code → code = 1) ∧
  (∀ cfg e, loadProviderConfig path node = (cfg, None) →
            ParseConfig path = Err e → ret = ExitsProcess 1).
Proof.
  cbv zeta. unfold NewInstanceProvider.
  destruct (loadProviderConfig path node) as [providerConfig [e0 |]] eqn:Hload.
  { split; [| split]; [| discriminate | discriminate].
    intros e. split.
    - intros [= <-]. left. by eexists.
    - intros [(cfg & [= _ <-]) | (cfg & scf & [=] & _)]. reflexivity. }
  destruct (ParseConfig path) as [scf | e0] eqn:Hparse;
    cbn [mbind startup_bind orExit].
  2: { split; [| split]; [| by intros code [= <-] | done].
       intros e. split; [discriminate |].
       intros [(cfg & [=]) | (cfg & scf & _ & [=] & _)]. }
  destruct (decide (0 < length (validateServerConfigFile scf))%nat) as [Hbad | Hgood].
  { split; [| split]; [| discriminate | discriminate].
    intros e. split.
    - intros [= <-]. right. exists providerConfig, scf.
      repeat split. intros Hnil. rewrite Hnil in Hbad. cbn in Hbad. lia.
    - intros [(cfg & [=]) | (cfg & scf' & _ & [= <-] & _ & ->)]. reflexivity. }
  assert (Hvalid : validateServerConfigFile scf = []).
  { destruct (validateServerConfigFile scf); [done | cbn in Hgood; lia]. }
  split; [| split]; [| | discriminate].
  - intros e. split.
    + repeat startup_step; discriminate.
    + intros [(cfg & [=]) | (cfg & scf' & _ & [= <-] & Hne & _)]. done.
  - intros code. repeat startup_step; intros [=]; done.
Qed.

(** X22: The provider [NewInstanceProvider] returns carries the arguments of
    the call and the configuration [loadProviderConfig] returned without
    an error, so that [ConfigureNode] cannot panic on it.  It comes with
    the five registries, with the pod, node, garbage and metrics
    controllers, and with the image controller exactly when the cloud
    client is the Azure client; node agents are reached on public
    addresses exactly when the controller is outside the VPC. *)
Theorem NewInstanceProvider_provider (node os ip path : string) (port : Z)
    (srv : Server St) :
  NewInstanceProvider node os ip path port = Started srv →
  nodeName (provider srv) = node ∧
  operatingSystem (provider srv) = os ∧
  internalIP (provider srv) = ip ∧
  daemonEndpointPort (provider srv) = port ∧
  loadProviderConfig path node = (config (provider srv), None) ∧
  (∀ ctx now n, ∃ n', (ConfigureNode (provider srv) ctx now n).2 = Returns n') ∧
  KV srv = {[ "Pod"; "Node"; "Event"; "Log"; "Metric" ]} ∧
  {[ "PodController"; "NodeController"; "GarbageController";
     "MetricsController" ]} ⊆ Controllers srv ∧
  (∀ name, name ∈ Controllers srv →
     name ∈ [ "PodController"; "NodeController"; "GarbageController";
              "MetricsController"; "ImageController" ]) ∧
  ("ImageController" ∈ Controllers srv ↔ isAzureClient (cloudClient srv) = true) ∧
  usePublicIPs srv = negb (ControllerInsideVPC (cloudClient srv)).
Proof.
  intros Hstart.
  destruct (NewInstanceProvider_Started_inv _ _ _ _ _ _ Hstart)
    as (cfg & scf & c0 & c1 & c2 & id & cloud & Hload & _ & _ & _ & _ & _ & Hrest).
  cbv zeta in Hrest. destruct Hrest as (_ & _ & _ & _ & ->). cbn.
  do 4 (split; [reflexivity |]). split; [exact Hload |]. split.
  { intros ctx now n.
    destruct (loadProviderConfig_ok_inv _ _ _ Hload) as (_ & _ & _ & _ & Hparse).
    destruct (capacity_Returns
                {| nodeName := node; operatingSystem := os; internalIP := ip;
                   daemonEndpointPort := port; config := cfg; startTime := timeNow |}
                Hparse) as [cap Hcap].
    unfold ConfigureNode.
    destruct (trace.StartSpan ctx "ConfigureNode") as [ctx' span].
    rewrite Hcap. by eexists. }
  split; [reflexivity |].
  assert (Hbase : ∀ name : string,
            name ∈ ({[ "PodController"; "NodeController"; "GarbageController";
                       "MetricsController" ]} : gset string) ↔
            name ∈ [ "PodController"; "NodeController"; "GarbageController";
                     "MetricsController" ]).
  { intros name. rewrite !elem_of_union, !elem_of_singleton.
    rewrite !elem_of_cons, elem_of_nil. tauto. }
  destruct (isAzureClient cloud).
  - split; [apply union_subseteq_r |]. split.
    { intros name [->%elem_of_singleton | Hin%Hbase]%elem_of_union.
      - rewrite !elem_of_cons. auto 10.
      - rewrite !elem_of_cons, elem_of_nil in Hin. rewrite !elem_of_cons.
        destruct Hin as [-> | [-> | [-> | [-> | []]]]]; auto 10. }
    split; [| reflexivity].
    split; [done |]. intros _. apply elem_of_union_l. by apply elem_of_singleton.
  - split; [reflexivity |]. split.
    { intros name Hin%Hbase. rewrite !elem_of_cons, elem_of_nil in Hin.
      rewrite !elem_of_cons.
      destruct Hin as [-> | [-> | [-> | [-> | []]]]]; auto 10. }
    split; [| reflexivity].
    split; [| discriminate].
    intros Hin%Hbase. rewrite !elem_of_cons, elem_of_nil in Hin.
    destruct Hin as [[=] | [[=] | [[=] | [[=] | []]]]].
Qed.

(** X23: The controller ID of a started provider is the one of the testing
    section of the server configuration when that is set, the one
    [getControllerID] returned otherwise; the name tag is the configured
    one, or the controller ID when none is configured.  The node
    controller gets the itzo version and URL of the configuration. *)
Theorem NewInstanceProvider_identity (node os ip path : string) (port : Z)
    (srv : Server St) :
  NewInstanceProvider node os ip path port = Started srv →
  ∃ scf, ParseConfig path = Ok scf ∧
    (TestingControllerID scf ≠ "" → controllerID srv = TestingControllerID scf) ∧
    (TestingControllerID scf = "" →
       ∃ c0 c1, setupEtcd (EtcdInternalConfigFile scf) (EtcdInternalDataDir scf) = Ok c0 ∧
                getControllerID c0 = (c1, Ok (controllerID srv))) ∧
    (NodesNametag scf ≠ "" → nametag srv = NodesNametag scf) ∧
    (NodesNametag scf = "" → nametag srv = controllerID srv) ∧
    nodemanager.ItzoVersion (nodeController srv) = NodesItzoVersion scf ∧
    nodemanager.ItzoURL (nodeController srv) = NodesItzoURL scf.
Proof.
  intros Hstart.
  destruct (NewInstanceProvider_Started_inv _ _ _ _ _ _ Hstart)
    as (cfg & scf & c0 & c1 & c2 & id & cloud & _ & Hparse & _ & Hetcd & Hid & _ & Hrest).
  cbv zeta in Hrest. destruct Hrest as (_ & _ & _ & _ & ->). cbn.
  exists scf. split; [exact Hparse |].
  repeat split; intros; repeat case_decide; try done.
  exists c0, c1. by split.
Qed.

(** X24: A provider is only returned for the region the store holds: when
    [NewInstanceProvider] returns, the store it leaves has the region of
    the cloud client under [milpa/cluster/region]. *)
Theorem NewInstanceProvider_region `{!SimpleEtcdLaws St}
    (node os ip path : string) (port : Z) (srv : Server St) :
  NewInstanceProvider node os ip path port = Started srv →
  ∃ kv, etcd.Get (etcdClient srv) etcdClusterRegionPath = Ok kv ∧
        store.Value kv = Region (GetAttributes (cloudClient srv)).
Proof.
  intros Hstart.
  destruct (NewInstanceProvider_Started_inv _ _ _ _ _ _ Hstart)
    as (cfg & scf & c0 & c1 & c2 & id & cloud & _ & _ & _ & _ & _ & _ & Hrest).
  cbv zeta in Hrest. destruct Hrest as (_ & Hregion & _ & _ & Hsrv).
  assert (Hcloud : cloudClient srv = cloud) by (by rewrite Hsrv).
  rewrite Hcloud. clear Hsrv Hcloud.
  unfold ensureRegionUnchanged in Hregion.
  destruct (etcd.Get c2 etcdClusterRegionPath) as [kv | e] eqn:Hread.
  - destruct (decide (Region (GetAttributes cloud) ≠ store.Value kv)) as [| Heq];
      [discriminate |].
    apply dec_stable in Heq. injection Hregion as <-. by exists kv.
  - destruct (decide (e ≠ ErrKeyNotFound)); [discriminate |].
    destruct (etcd.AtomicPut c2 etcdClusterRegionPath
                (Region (GetAttributes cloud)) None None)
      as [c' [[ok kv] err]] eqn:Hwrite.
    injection Hregion as -> ->. by eapply AtomicPut_Get.
Qed.

(** C7: the controllers [NewInstanceProvider] constructs are configured with
    the intervals of the specification: whenever it returns a provider,
    the node controller built has a pool interval of 7 seconds and
    heartbeat and reaper intervals of 10 seconds, and the garbage
    controller built cleans instances every 60 seconds and terminated
    pods every 10 seconds. *)
Theorem NewInstanceProvider_controller_intervals (node os ip path : string) (port : Z)
    (srv : Server St) :
  NewInstanceProvider node os ip path port = Started srv →
  time.Second = 1000000000 ∧
  nodemanager.PoolInterval (nodeController srv) = 7 * time.Second ∧
  nodemanager.HeartbeatInterval (nodeController srv) = 10 * time.Second ∧
  nodemanager.ReaperInterval (nodeController srv) = 10 * time.Second ∧
  CleanInstancesInterval (garbageController srv) = 60 * time.Second ∧
  CleanTerminatedInterval (garbageController srv) = 10 * time.Second ∧
  "NodeController" ∈ Controllers srv ∧
  "GarbageController" ∈ Controllers srv.
Proof.
  intros Hstart.
  destruct (NewInstanceProvider_Started_inv _ _ _ _ _ _ Hstart)
    as (cfg & scf & c0 & c1 & c2 & id & cloud & _ & _ & _ & _ & _ & _ & Hrest).
  cbv zeta in Hrest. destruct Hrest as (_ & _ & _ & _ & ->). cbn.
  do 6 (split; [reflexivity |]).
  destruct (isAzureClient cloud);
    rewrite ?elem_of_union, !elem_of_singleton; split; auto 10.
Qed.

End StartupProperties.

(** X20: [setupEtcd] returns a client exactly when the server starts and the
    validation write, ["OK"] under ["/milpa/startup"] with a time to live
    of two seconds, succeeds on it; the client is the one that wrote.  An
    error it returns is always a wrapped one: the error of the start or
    the error of the write. *)
Theorem setupEtcd_validated {St : Type} `{!Environment St} (configFile dataDir : string) :
  let wo := {| store.IsDir := false; store.TTL := 2000000000 |} in
  (∀ client, setupEtcd configFile dataDir = Ok client ↔
     ∃ started, EtcdServerStart configFile dataDir = Ok started ∧
                PutNoTimeout started "/milpa/startup" "OK" wo = (client, None)) ∧
  (∀ e, setupEtcd configFile dataDir = Err e →
     (∃ cause, EtcdServerStart configFile dataDir = Err cause ∧
               e = WrapError cause "Error creating internal etcd storage backend") ∨
     (∃ started client cause,
        EtcdServerStart configFile dataDir = Ok started ∧
        PutNoTimeout started "/milpa/startup" "OK" wo = (client, Some cause) ∧
        e = WrapError cause "Fatal Error: Could not write to etcd")).
Proof.
  cbv zeta. unfold setupEtcd, validateWriteToEtcd.
  change (2 * time.Second) with 2000000000.
  destruct (EtcdServerStart configFile dataDir) as [started | cause].
  - destruct (PutNoTimeout started "/milpa/startup" "OK" _) as [client [cause |]] eqn:Hput.
    + split.
      * intros client'. split; [discriminate |].
        intros (started' & [= <-] & Hput'). rewrite Hput in Hput'. discriminate.
      * intros e [= <-]. right. by exists started, client, cause.
    + split.
      * intros client'. split.
        -- intros [= <-]. by exists started.
        -- intros (started' & [= <-] & Hput'). rewrite Hput in Hput'. by injection Hput' as ->.
      * discriminate.
  - split.
    + intros client. split; [discriminate |]. intros (started & [=] & _).
    + intros e [= <-]. left. by exists cause.
Qed.

(** * Further scenarios *)

Lemma reverseMergeSorter_laws : @SliceSorterLaws reverseMergeSorter.
Proof.
  split.
  - intros A less l. unfold sort_Slice, reverseMergeSorter.
    by rewrite merge_sort_Permutation, reverse_Permutation.
  - intros A less l Hswo.
    assert (Total (not_after less)).
    { intros x y. unfold not_after.
      destruct (less y x) eqn:Hyx; [right | left; reflexivity].
      by apply (swo_asym less Hswo). }
    assert (Transitive (not_after less)).
    { intros x y z Hxy Hyz. by apply (swo_co_trans less Hswo x y z). }
    apply StronglySorted_merge_sort; assumption.
Qed.

(** What [filterEventList] returns for 4001 events given newest first. *)
Lemma filterEventList_newestFirst_4001 :
  @filterEventList mergeSorter (Some (newestFirst 4001)) =
    Some {| api.EventListTypeMeta := api.EventListTypeMeta (newestFirst 4001);
            api.Items := (λ k : nat, eventAt (Z.of_nat k)) <$> seq 1 4000 |}.
Proof. vm_compute. reflexivity. Qed.

Lemma filterEventList_submseteq_of_4001 :
  ∃ out, @filterEventList mergeSorter (Some (newestFirst 4001)) = Some out ∧
         api.EventListTypeMeta out = api.EventListTypeMeta (newestFirst 4001) ∧
         api.Items out ⊆+ api.Items (newestFirst 4001).
Proof.
  exact (@filterEventList_submseteq mergeSorter mergeSorter_laws (newestFirst 4001)).
Defined.

Lemma filterEventList_length_monotone_example :
  ∃ out1 out2,
    @filterEventList mergeSorter (Some (newestFirst 3)) = Some out1 ∧
    @filterEventList mergeSorter (Some (newestFirst 4001)) = Some out2 ∧
    (length (api.Items out1) ≤ length (api.Items out2))%nat ∧
    (length (api.Items out2) ≤ length (api.Items (newestFirst 4001)))%nat ∧
    Z.of_nat (length (api.Items out2)) ≤ MaxEventListSize.
Proof.
  apply (@filterEventList_length_monotone mergeSorter mergeSorter_laws
           (newestFirst 3) (newestFirst 4001)).
  vm_compute. lia.
Defined.

Lemma filterEventList_newer_kept_example :
  ∃ out, @filterEventList mergeSorter (Some (newestFirst 4001)) = Some out ∧
         eventAt 4000 ∈ api.Items out.
Proof.
  eexists. split; [exact filterEventList_newestFirst_4001 |].
  apply (@filterEventList_newer_kept mergeSorter mergeSorter_laws
           (newestFirst 4001) _ (eventAt 4000) (eventAt 1)
           filterEventList_newestFirst_4001).
  - apply (list_elem_of_fmap_2 (λ k : nat, eventAt (Z.of_nat k)) _ 4000%nat).
    apply elem_of_reverse, elem_of_seq. lia.
  - apply (list_elem_of_fmap_2 (λ k : nat, eventAt (Z.of_nat k)) _ 1%nat).
    apply elem_of_seq. lia.
  - vm_compute. reflexivity.
Defined.

Lemma filterEventList_timestamps_two_sorters :
  (λ out, created <$> api.Items out) <$>
    @filterEventList mergeSorter (Some (newestFirst 4001)) =
  (λ out, created <$> api.Items out) <$>
    @filterEventList reverseMergeSorter (Some (newestFirst 4001)).
Proof.
  exact (filterEventList_timestamps_any_sorter mergeSorter reverseMergeSorter
           mergeSorter_laws reverseMergeSorter_laws (Some (newestFirst 4001))).
Defined.

Lemma filterEventList_exactly_4000 :
  @filterEventList mergeSorter (Some (newestFirst 4000)) = Some (newestFirst 4000) ∧
  @filterEventList mergeSorter None = None.
Proof.
  apply (@filterEventList_within_bound mergeSorter (newestFirst 4000)).
  vm_compute. discriminate.
Defined.

Lemma filterReplyObject_idempotent_example :
  @filterReplyObject mergeSorter
    (@filterReplyObject mergeSorter (api.EventListObject (Some (newestFirst 4001)))) =
  @filterReplyObject mergeSorter (api.EventListObject (Some (newestFirst 4001))).
Proof.
  exact (@filterReplyObject_idempotent mergeSorter mergeSorter_laws
           (api.EventListObject (Some (newestFirst 4001)))).
Defined.

Lemma addAttributes_fields_example :
  ctxFields (addAttributes {| ctxSpan := Some "GetPod"; ctxFields := [("trace", "1")] |}
               recordingSpan [namespaceKey; "default"; nameKey; "p1"]) !! 2%nat =
    Some (nameKey, "p1") ∧
  addAttributes exampleContext nopSpan [namespaceKey; "default"; nameKey; "p1"] =
    exampleContext ∧
  addAttributes exampleContext recordingSpan [namespaceKey; "default"; nameKey] =
    exampleContext.
Proof.
  destruct (addAttributes_fields
              {| ctxSpan := Some "GetPod"; ctxFields := [("trace", "1")] |}
              recordingSpan [namespaceKey; "default"; nameKey; "p1"]) as [_ Heven].
  destruct (addAttributes_fields exampleContext nopSpan
              [namespaceKey; "default"; nameKey; "p1"]) as [_ Hnop].
  destruct (addAttributes_fields exampleContext recordingSpan
              [namespaceKey; "default"; nameKey]) as [Hodd _].
  split; [| split; [| apply Hodd; reflexivity]].
  - destruct Heven as (_ & _ & _ & _ & Hfields); [reflexivity |].
    destruct Hfields as (_ & _ & _ & Hfield); [by intros c k v |].
    apply (Hfield 1%nat); reflexivity.
  - destruct Hnop as (_ & _ & _ & Hsame & _); [reflexivity |].
    by apply Hsame.
Defined.

Lemma loadProviderConfig_valid_example :
  ∃ q, @resource.ParseQuantity wholeQuantities "100Gi" = Ok q.
Proof.
  assert (Hload : @loadProviderConfig plainQuoter exampleFiles exampleDecoder
                    wholeQuantities examplePath "vk" =
                  ({| CPU := "8"; Memory := "100Gi"; Pods := "20" |}, None))
    by (vm_compute; reflexivity).
  destruct (@loadProviderConfig_valid plainQuoter exampleFiles exampleDecoder
              wholeQuantities examplePath "vk" _ Hload) as (_ & _ & _ & Hparse).
  apply Hparse. cbn. apply list_elem_of_further, list_elem_of_here.
Defined.

Lemma loadProviderConfig_missing_file :
  ∃ msg, @loadProviderConfig plainQuoter exampleFiles exampleDecoder wholeQuantities
           "/etc/kip/missing.json" "vk" = (ProviderConfig_zero, Some (Errorf msg)) ∧
         contains msg (plainQuoter "/etc/kip/missing.json") ∧
         contains msg "no such file or directory".
Proof.
  destruct (@loadProviderConfig_file_errors plainQuoter exampleFiles exampleDecoder
              wholeQuantities "/etc/kip/missing.json" "vk") as [Hread _].
  apply (Hread (LibraryError "no such file or directory")).
  vm_compute. reflexivity.
Defined.

Lemma loadProviderConfig_first_invalid_example :
  let decoder := tableDecoder {[ exampleData :=
                     {[ "vk" := {| CPU := "lots"; Memory := "much"; Pods := "" |} ]} ]} in
  ∃ e' : error, @resource.ParseQuantity wholeQuantities "lots" = Err e'.
Proof.
  intros decoder.
  assert (Hread : @ioutil.ReadFile exampleFiles examplePath = Ok exampleData)
    by (vm_compute; reflexivity).
  assert (Hdecode : @json.Unmarshal decoder exampleData =
                    Ok {[ "vk" := {| CPU := "lots"; Memory := "much"; Pods := "" |} ]})
    by (vm_compute; reflexivity).
  assert (Hret : @loadProviderConfig plainQuoter exampleFiles decoder wholeQuantities
                   examplePath "vk" =
                 ({| CPU := "lots"; Memory := "much"; Pods := "20" |},
                  Some (Errorf "Invalid CPU value lots")))
    by (vm_compute; reflexivity).
  destruct (@loadProviderConfig_first_invalid plainQuoter exampleFiles decoder
              wholeQuantities examplePath "vk" exampleData _ _ _ Hread Hdecode Hret)
    as (_ & _ & _ & [[_ Hcpu] | [[Hmemory _] | [Hpods _]]]).
  - exact Hcpu.
  - discriminate Hmemory.
  - discriminate Hpods.
Defined.

Lemma capacity_resources_example :
  ∃ cap cpu, @capacity wholeQuantities exampleProvider = Returns cap ∧
             cap !! "cpu" = Some cpu ∧
             @resource.ParseQuantity wholeQuantities "8" = Ok cpu ∧
             dom cap = ({["cpu"; "memory"; "pods"]} : gset string).
Proof.
  destruct (@capacity_resources wholeQuantities exampleProvider) as [_ Hcap].
  destruct (@capacity wholeQuantities exampleProvider) as [cap |] eqn:Heq;
    [| vm_compute in Heq; discriminate].
  destruct (Hcap cap eq_refl)
    as (cpu & memory & pods & Hcpu & _ & _ & Hlookup & _ & _ & Hdom).
  exists cap, cpu. split; [reflexivity |]. split; [exact Hlookup |].
  split; [exact Hcpu | exact Hdom].
Defined.

Lemma ConfigureNode_replaces_status_example :
  ∃ n', (@ConfigureNode recordingTracer wholeQuantities exampleProvider exampleContext
           (λ _, 0) exampleNode).2 = Returns n' ∧
        v1.NodeLabels n' = {[ "type" := "virtual-kubelet" ]} ∧
        v1.Spec n' = v1.Spec exampleNode ∧
        v1.Images (v1.Status_ n') = v1.Images (v1.Status_ exampleNode) ∧
        v1.MachineID (v1.NodeInfo (v1.Status_ n')) = "machine" ∧
        v1.Addresses (v1.Status_ n') =
          [ {| v1.AddressType := "InternalIP"; v1.Address := "10.0.0.7" |} ] ∧
        (@ConfigureNode recordingTracer wholeQuantities exampleProvider exampleContext
           (λ _, 0) n').2 = Returns n'.
Proof.
  destruct (@ConfigureNode recordingTracer wholeQuantities exampleProvider
              exampleContext (λ _, 0) exampleNode).2 as [n' |] eqn:Heq;
    [| vm_compute in Heq; discriminate].
  destruct (@ConfigureNode_replaces_status recordingTracer wholeQuantities
              exampleProvider exampleContext (λ _, 0) exampleNode n' Heq)
    as ((_ & _ & _ & _ & Hlabels & _ & Hspec) & (_ & Himages & _) &
        (Hmachine & _) & (_ & Haddr & _) & _ & Hagain).
  exists n'. split; [reflexivity |]. split; [exact Hlabels |].
  split; [exact Hspec |]. split; [exact Himages |]. split; [exact Hmachine |].
  split; [exact Haddr | exact Hagain].
Defined.

Lemma loaded_config_configures_node_example :
  (∃ cap, @capacity wholeQuantities exampleProvider = Returns cap) ∧
  ∃ n', (@ConfigureNode recordingTracer wholeQuantities exampleProvider exampleContext
           (λ _, 0) exampleNode).2 = Returns n'.
Proof.
  apply (@loaded_config_configures_node recordingTracer plainQuoter exampleFiles exampleDecoder
           wholeQuantities examplePath "vk" exampleProvider).
  vm_compute. reflexivity.
Defined.

Lemma ensureRegionUnchanged_region_fixed_example :
  let m' := {| etcd.data := {[ etcdClusterRegionPath := "us-east-1" ]};
               etcd.outage := None |} in
  ensureRegionUnchanged m' "us-east-1" = (m', None) ∧
  ∃ msg, ensureRegionUnchanged m' "us-west-2" = (m', Some (Errorf msg)) ∧
         contains msg "us-east-1" ∧ contains msg "us-west-2".
Proof.
  intros m'.
  destruct (@ensureRegionUnchanged_region_fixed etcd.Mem etcd.memEtcd memEtcd_laws
              {| etcd.data := ∅; etcd.outage := None |} m' "us-east-1")
    as [Hsame Hother].
  { vm_compute. reflexivity. }
  split; [exact Hsame |]. apply Hother. discriminate.
Defined.

Lemma fatal_newline_terminated_example :
  kipctl.stderr (@kipctl.fatal kipctl.verbatim "cannot reach the server" []) =
    "cannot reach the server" +:+ kipctl.newline.
Proof.
  destruct (@fatal_newline_terminated kipctl.verbatim "cannot reach the server" [])
    as (_ & _ & _ & Hadds).
  apply Hadds. intros [pre Hends].
  apply (f_equal (λ s, strings.HasSuffix s kipctl.newline)) in Hends.
  rewrite (proj2 (HasSuffix_spec (pre +:+ kipctl.newline) kipctl.newline))
    in Hends by (by exists pre).
  vm_compute in Hends. discriminate.
Defined.

Lemma dieIfReplyError_not_found :
  ∃ exit, @kipctl.dieIfReplyError kipctl.verbatim "get"
            {| clientapi.Status := 404; clientapi.Body := "not found" |} = Some exit ∧
          kipctl.exitCode exit = 1.
Proof.
  destruct (@dieIfReplyError_status_range kipctl.verbatim "get"
              {| clientapi.Status := 404; clientapi.Body := "not found" |})
    as [_ Hdies].
  eexists. split; [reflexivity |]. by apply Hdies.
Defined.

Lemma dieIfError_example :
  ∃ exit, @kipctl.dieIfError kipctl.verbatim (Some ErrKeyNotFound) "get pod" [] =
            Some exit ∧
          kipctl.exitCode exit = 1.
Proof.
  destruct (@dieIfError_exits kipctl.verbatim (Some ErrKeyNotFound) "get pod" [])
    as [_ Hdies].
  destruct (Hdies ErrKeyNotFound eq_refl) as (exit & Hexit & Hcode & _).
  by exists exit.
Defined.

Lemma setConfigDefaults_example :
  rest.UserAgent
    (@v1beta2.setConfigDefaults exampleRestTypes exampleRestClient exampleScheme
       exampleRestConfig).1 =
  "kip/v0.0.0 (linux/amd64) kubernetes/unknown".
Proof.
  destruct (@setConfigDefaults_idempotent exampleRestTypes exampleRestClient
              exampleScheme exampleRestConfig)
    as (_ & _ & _ & _ & _ & _ & _ & _ & Hdefault).
  by apply Hdefault.
Defined.

Lemma NewForConfig_example :
  @v1beta2.NewForConfig exampleRestTypes exampleRestClient exampleScheme
    exampleRestConfig =
  Ok (@v1beta2.New exampleRestTypes (Some "https://10.0.0.1:6443/apis")).
Proof.
  destruct (@NewForConfig_client exampleRestTypes exampleRestClient exampleScheme
              exampleRestConfig) as [Hok _].
  apply (Hok "https://10.0.0.1:6443/apis"). reflexivity.
Defined.

Lemma setupEtcd_example :
  @setupEtcd etcd.Mem exampleEnvironment "" "/opt/kip/data" =
    Ok {| etcd.data := {[ "/milpa/startup" := "OK" ]}; etcd.outage := None |}.
Proof.
  destruct (@setupEtcd_validated etcd.Mem exampleEnvironment "" "/opt/kip/data")
    as [Hok _].
  apply Hok. eexists. split; reflexivity.
Defined.

Lemma exampleStart_Started : ∃ srv, exampleStart = Started srv.
Proof.
  destruct exampleStart as [srv | e | code] eqn:Heq; [by exists srv | |];
    vm_compute in Heq; discriminate.
Qed.

Lemma NewInstanceProvider_missing_config :
  ∃ e, @NewInstanceProvider etcd.Mem etcd.memEtcd exampleEnvironment plainQuoter
         exampleFiles exampleDecoder wholeQuantities
         "vk" "" "10.0.0.7" "/etc/kip/missing.json" 10250 = ReturnsError e.
Proof.
  destruct (@NewInstanceProvider_failures etcd.Mem etcd.memEtcd exampleEnvironment
              plainQuoter exampleFiles exampleDecoder wholeQuantities
              "vk" "" "10.0.0.7" "/etc/kip/missing.json" 10250) as [Hreturns _].
  eexists. apply Hreturns. left. eexists. reflexivity.
Defined.

Lemma NewInstanceProvider_provider_example :
  ∃ srv, exampleStart = Started srv ∧
         nodeName (provider srv) = "vk" ∧
         config (provider srv) = {| CPU := "8"; Memory := "100Gi"; Pods := "20" |} ∧
         ("ImageController" ∈ Controllers srv ↔ isAzureClient (cloudClient srv) = true).
Proof.
  destruct exampleStart_Started as [srv Hsrv]. exists srv. split; [exact Hsrv |].
  destruct (@NewInstanceProvider_provider etcd.Mem etcd.memEtcd exampleEnvironment
              plainQuoter exampleFiles exampleDecoder wholeQuantities recordingTracer
              "vk" "" "10.0.0.7" examplePath 10250 srv Hsrv)
    as (Hname & _ & _ & _ & Hload & _ & _ & _ & _ & Hazure & _).
  split; [exact Hname |]. split; [| exact Hazure].
  assert (Hvalue : @loadProviderConfig plainQuoter exampleFiles exampleDecoder
                     wholeQuantities examplePath "vk" =
                   ({| CPU := "8"; Memory := "100Gi"; Pods := "20" |}, None))
    by (vm_compute; reflexivity).
  rewrite Hvalue in Hload. by injection Hload as <-.
Defined.

Lemma NewInstanceProvider_identity_example :
  ∃ srv, exampleStart = Started srv ∧ nametag srv = controllerID srv.
Proof.
  destruct exampleStart_Started as [srv Hsrv]. exists srv. split; [exact Hsrv |].
  destruct (@NewInstanceProvider_identity etcd.Mem etcd.memEtcd exampleEnvironment
              plainQuoter exampleFiles exampleDecoder wholeQuantities
              "vk" "" "10.0.0.7" examplePath 10250 srv Hsrv)
    as (scf & Hparse & _ & _ & _ & Hdefault & _).
  apply Hdefault. vm_compute in Hparse. by injection Hparse as <-.
Defined.

Lemma NewInstanceProvider_region_example :
  ∃ srv kv, exampleStart = Started srv ∧
            etcd.Get (etcdClient srv) etcdClusterRegionPath = Ok kv ∧
            store.Value kv = Region (GetAttributes (cloudClient srv)).
Proof.
  destruct exampleStart_Started as [srv Hsrv].
  destruct (@NewInstanceProvider_region etcd.Mem etcd.memEtcd exampleEnvironment
              plainQuoter exampleFiles exampleDecoder wholeQuantities memEtcd_laws
              "vk" "" "10.0.0.7" examplePath 10250 srv Hsrv) as (kv & Hget & Hvalue).
  by exists srv, kv.
Defined.

Lemma NewInstanceProvider_controller_intervals_example :
  ∃ srv, exampleStart = Started srv ∧
         nodemanager.PoolInterval (nodeController srv) = 7000000000 ∧
         nodemanager.HeartbeatInterval (nodeController srv) = 10000000000 ∧
         nodemanager.ReaperInterval (nodeController srv) = 10000000000 ∧
         CleanInstancesInterval (garbageController srv) = 60000000000 ∧
         CleanTerminatedInterval (garbageController srv) = 10000000000.
Proof.
  destruct exampleStart_Started as [srv Hsrv]. exists srv. split; [exact Hsrv |].
  destruct (@NewInstanceProvider_controller_intervals etcd.Mem etcd.memEtcd
              exampleEnvironment plainQuoter exampleFiles exampleDecoder
              wholeQuantities "vk" "" "10.0.0.7" examplePath 10250 srv Hsrv)
    as (_ & Hpool & Hheartbeat & Hreaper & Hinstances & Hterminated & _).
  repeat split; assumption.
Defined.

(** A store that holds another region than the cloud's: the process
    exits. *)
Example NewInstanceProvider_region_changed :
  let env : Environment etcd.Mem :=
    {| Cloud := CloudAttributes;
       CertFactory := ();
       ParseConfig := λ _, Ok exampleServerConfig;
       validateServerConfigFile := λ _, [];
       ToAggregate := λ _, "";
       EtcdServerStart := λ _ _,
         Ok {| etcd.data := {[ etcdClusterRegionPath := "us-east-1" ]};
               etcd.outage := None |};
       PutNoTimeout := λ m _ _ _, (m, None);
       WrapError := λ e _, e;
       getControllerID := λ m, (m, Ok "controller-1");
       certsNew := λ m, (m, Ok ());
       CreateClientCert := λ _, Ok "certificate";
       ConfigureCloud := λ _ _ _,
         Ok {| Provider := "aws"; Region := "us-west-2"; FixedSizeVolume := false |};
       GetAttributes := λ c, c;
       ControllerInsideVPC := λ _, true;
       isAzureClient := λ _, false;
       instanceselectorSetup := λ _ _ _, None;
       ValidateInstanceType := λ _, [];
       validateBootImageTags := λ _ _, None;
       timeNow := 0 |} in
  @NewInstanceProvider etcd.Mem etcd.memEtcd env plainQuoter exampleFiles
    exampleDecoder wholeQuantities "vk" "" "10.0.0.7" examplePath 10250 =
  ExitsProcess 1.
Proof. vm_compute. reflexivity. Qed.
